(** * The warehouse extracts of [01-download_data.py]

    The script holds seven routines.  Each one sends a fixed SQL statement to
    the warehouse, turns the answer into a data frame and writes the frame to a
    CSV file under the raw or the processed directory.  The queries are
    embedded as functions on the two source tables (bags of rows, kept as
    lists), the routines as computations over a file system that may raise. *)

From stdpp Require Import base decidable option list strings pretty.
From stdpp Require Import sorting gmap.
From Stdlib Require Import ZArith Lia.

Open Scope Z_scope.

(** ** SQL values *)

(** A cell of a result set, as it reaches the data frame.  Columns that the
    queries compute with are typed ([option Z], [option string], ...; [None]
    is NULL); columns that are only carried along hold a [value], their SQL
    type being of no consequence. *)
Inductive value :=
  | Null
  | Int (z : Z)
  | Str (s : string)
  | Bool (b : bool)
  | Date (year month day : Z).

Record date := { year : Z; month_of_year : Z; day : Z }.

Definition of_int (x : option Z) : value := from_option Int Null x.
Definition of_str (x : option string) : value := from_option Str Null x.
Definition of_bool (x : option bool) : value := from_option Bool Null x.
Definition of_date (x : option date) : value :=
  from_option (λ d, Date (year d) (month_of_year d) (day d)) Null x.

(** ** Three-valued conditions

    A comparison with NULL is NULL; WHERE, HAVING and ON keep a row only when
    the condition is TRUE. *)
Definition sql_cmp (test : Z → Z → bool) (a b : option Z) : option bool :=
  match a, b with
  | Some x, Some y => Some (test x y)
  | _, _ => None
  end.

Definition sql_gt : option Z → option Z → option bool := sql_cmp Z.gtb.
Definition sql_ge : option Z → option Z → option bool := sql_cmp Z.geb.
Definition sql_le : option Z → option Z → option bool := sql_cmp Z.leb.

Definition sql_eq {A} `{EqDecision A} (a b : option A) : option bool :=
  match a, b with
  | Some x, Some y => Some (bool_decide (x = y))
  | _, _ => None
  end.

Definition sql_and (p q : option bool) : option bool :=
  match p, q with
  | Some false, _ | _, Some false => Some false
  | Some true, Some true => Some true
  | _, _ => None
  end.

Definition sql_or (p q : option bool) : option bool :=
  match p, q with
  | Some true, _ | _, Some true => Some true
  | Some false, Some false => Some false
  | _, _ => None
  end.

(** [x BETWEEN lo AND hi] is [lo <= x AND x <= hi]. *)
Definition sql_between (x lo hi : option Z) : option bool :=
  sql_and (sql_ge x lo) (sql_le x hi).

Definition holds (p : option bool) : Prop := p = Some true.

Global Instance holds_dec p : Decision (holds p).
Proof. unfold holds. apply _. Defined.

(** ** Aggregates *)

(** [SUM] skips NULLs and is NULL when no input is left. *)
Fixpoint SUM (l : list (option Z)) : option Z :=
  match l with
  | [] => None
  | None :: l => SUM l
  | Some v :: l => Some (v + default 0 (SUM l))
  end.

(** [COUNT(expr)] counts the inputs that are not NULL; [COUNT( * )] counts
    rows. *)
Definition COUNT {A} (l : list (option A)) : Z :=
  Z.of_nat (length (filter is_Some l)).

Definition COUNT_star {A} (l : list A) : Z := Z.of_nat (length l).

(** [GROUP BY key]: one group per distinct key, NULL keys grouped together. *)
Definition GROUP_BY {A K} `{EqDecision K} (key : A → K) (t : list A)
    : list (K * list A) :=
  (λ k, (k, filter (λ r, key r = k) t)) <$> remove_dups (key <$> t).

(** [a INNER JOIN b ON cond]. *)
Definition INNER_JOIN {A B} (on : A → B → option bool)
    (l : list A) (r : list B) : list (A * B) :=
  a ← l; (λ b, (a, b)) <$> filter (λ b, holds (on a b)) r.

(** ** ORDER BY

    NULL sorts before every value in ascending order (and so after every
    value in descending order).  [ORDER BY k1, k2] compares by [k1] and, on
    a tie, by [k2]. *)
Definition nulls_first {A} (R : relation A) : relation (option A) :=
  λ a b, match a, b with
         | None, _ => True
         | Some _, None => False
         | Some x, Some y => R x y
         end.

Definition asc {A K} (key : A → K) (R : relation K) : relation A :=
  λ x y, R (key x) (key y).
Definition desc {A K} (key : A → K) (R : relation K) : relation A :=
  λ x y, R (key y) (key x).
Definition then_by {A} (R1 R2 : relation A) : relation A :=
  λ x y, R1 x y ∧ (R1 y x → R2 x y).

Global Instance nulls_first_dec {A} (R : relation A) `{!RelDecision R} :
  RelDecision (nulls_first R).
Proof. intros [x|] [y|]; simpl; apply _. Defined.
Global Instance asc_dec {A K} (key : A → K) (R : relation K)
  `{!RelDecision R} : RelDecision (asc key R).
Proof. intros x y. unfold asc. apply _. Defined.
Global Instance desc_dec {A K} (key : A → K) (R : relation K)
  `{!RelDecision R} : RelDecision (desc key R).
Proof. intros x y. unfold desc. apply _. Defined.
Global Instance then_by_dec {A} (R1 R2 : relation A)
  `{!RelDecision R1, !RelDecision R2} : RelDecision (then_by R1 R2).
Proof. intros x y. unfold then_by. apply _. Defined.

Definition ORDER_BY {A} (R : relation A) `{!RelDecision R}
    : list A → list A :=
  merge_sort R.

(** ** The source tables *)

(** [monthly_charges_2021], with the columns the queries name.  Every
    column may hold NULL.  [amount_usd] is an exact number, kept as an
    integer; the rounding of floating-point sums is outside the model. *)
Module MonthlyCharges.
Record row := {
  organization_id : option Z;
  amount_usd : option Z;
  type : option string;
  charged_on : option date;
  plan : option string;
  is_sales_driven : option bool
}.

Definition columns : list string :=
  ["organization_id"; "amount_usd"; "type"; "charged_on"; "plan";
   "is_sales_driven"].

Definition cells (r : row) : list value :=
  [of_int (organization_id r); of_int (amount_usd r); of_str (type r);
   of_date (charged_on r); of_str (plan r); of_bool (is_sales_driven r)].
End MonthlyCharges.

(** [organizations_before_2022]: the nineteen columns of the raw extract and
    [company_type], which the two joins read. *)
Module Organizations.
Record row := {
  organization_id : option Z;
  organization_owner_id : value;
  created_at : value;
  has_active_subscription : value;
  current_subscription_plan : value;
  current_billing_period : value;
  first_billed_user_count : value;
  revenue_realized_to_date_usd : value;
  time_entries_count : value;
  billable_time_entries_count : value;
  hours_tracked : value;
  billable_hours_tracked : value;
  clients_used : value;
  projects_used : value;
  billable_projects_used : value;
  country : value;
  industry : value;
  company_type : value;
  approximate_employees : value;
  reported_annual_revenue : value
}.

Definition columns : list string :=
  ["organization_id"; "organization_owner_id"; "created_at";
   "has_active_subscription"; "current_subscription_plan";
   "current_billing_period"; "first_billed_user_count";
   "revenue_realized_to_date_usd"; "time_entries_count";
   "billable_time_entries_count"; "hours_tracked";
   "billable_hours_tracked"; "clients_used"; "projects_used";
   "billable_projects_used"; "country"; "industry"; "company_type";
   "approximate_employees"; "reported_annual_revenue"].

Definition cells (r : row) : list value :=
  [of_int (organization_id r); organization_owner_id r; created_at r;
   has_active_subscription r; current_subscription_plan r;
   current_billing_period r; first_billed_user_count r;
   revenue_realized_to_date_usd r; time_entries_count r;
   billable_time_entries_count r; hours_tracked r;
   billable_hours_tracked r; clients_used r; projects_used r;
   billable_projects_used r; country r; industry r; company_type r;
   approximate_employees r; reported_annual_revenue r].
End Organizations.

Record database := {
  monthly_charges_2021 : list MonthlyCharges.row;
  organizations_before_2022 : list Organizations.row
}.

(** A result set as [to_dataframe] hands it over: the column names of the
    SELECT list and one list of cells per row. *)
Record DataFrame := { df_columns : list string; df_rows : list (list value) }.

(** ** The statements

    One fixed statement per routine. *)
Inductive statement :=
  | MonthlyCharges2021
  | OrgsBefore2022
  | PayingOrganizations
  | ChurnNumbers
  | OutliersAndMode
  | GroupbyPlan
  | GroupbyType.

(** The names of a statement's SELECT list, in order; for [SELECT *] the
    columns of the table. *)
Definition select_list (s : statement) : list string :=
  match s with
  | MonthlyCharges2021 =>
      MonthlyCharges.columns
  | OrgsBefore2022 =>
      ["organization_id"; "organization_owner_id"; "created_at";
       "has_active_subscription"; "current_subscription_plan";
       "current_billing_period"; "first_billed_user_count";
       "revenue_realized_to_date_usd"; "time_entries_count";
       "billable_time_entries_count"; "hours_tracked";
       "billable_hours_tracked"; "clients_used"; "projects_used";
       "billable_projects_used"; "country"; "industry";
       "approximate_employees"; "reported_annual_revenue"]
  | PayingOrganizations =>
      ["organization_id"; "organization_owner_id"; "total_revenue_2021";
       "revenue_realized_to_date_usd"; "time_entries_count";
       "billable_time_entries_count"; "hours_tracked";
       "billable_hours_tracked"; "clients_used"; "projects_used";
       "billable_projects_used"; "country"; "industry"; "company_type";
       "approximate_employees"; "reported_annual_revenue"]
  | ChurnNumbers =>
      ["organization_id"; "times_churned"; "times_reactivated";
       "times_retained"; "revenue"]
  | OutliersAndMode =>
      ["organization_id"; "total_revenue_2021"; "organization_owner_id";
       "revenue_realized_to_date_usd"; "time_entries_count";
       "billable_time_entries_count"; "hours_tracked";
       "billable_hours_tracked"; "clients_used"; "projects_used";
       "billable_projects_used"; "country"; "industry"; "company_type";
       "approximate_employees"; "reported_annual_revenue"]
  | GroupbyPlan =>
      ["plan"; "month"; "quarter"; "monthly_count"; "qtr_count";
       "count_by_plan"; "total_count"; "monthly_sales_driven";
       "qtr_sales_driven"; "sales_driven_by_plan"; "total_sales_driven";
       "monthly_revenue"; "qtr_revenue"; "revenue_by_plan";
       "total_revenue"]
  | GroupbyType =>
      ["type"; "month"; "quarter"; "monthly_count"; "qtr_count";
       "count_by_type"; "total_count"; "monthly_sales_driven";
       "qtr_sales_driven"; "sales_driven_by_type"; "total_sales_driven";
       "monthly_revenue"; "qtr_revenue"; "revenue_by_type";
       "total_revenue"]
  end.

(** ** The queries *)

(** *** get_monthly_charges_2021: [SELECT *] *)
Definition sql_monthly_charges_2021 (db : database) : DataFrame :=
  {| df_columns := select_list MonthlyCharges2021;
     df_rows := MonthlyCharges.cells <$> monthly_charges_2021 db |}.

(** *** get_orgs_before_2022: nineteen named columns *)
Definition orgs_before_2022_cells (b : Organizations.row) : list value :=
  [of_int (Organizations.organization_id b);
   Organizations.organization_owner_id b;
   Organizations.created_at b;
   Organizations.has_active_subscription b;
   Organizations.current_subscription_plan b;
   Organizations.current_billing_period b;
   Organizations.first_billed_user_count b;
   Organizations.revenue_realized_to_date_usd b;
   Organizations.time_entries_count b;
   Organizations.billable_time_entries_count b;
   Organizations.hours_tracked b;
   Organizations.billable_hours_tracked b;
   Organizations.clients_used b;
   Organizations.projects_used b;
   Organizations.billable_projects_used b;
   Organizations.country b;
   Organizations.industry b;
   Organizations.approximate_employees b;
   Organizations.reported_annual_revenue b].

Definition sql_orgs_before_2022 (db : database) : DataFrame :=
  {| df_columns := select_list OrgsBefore2022;
     df_rows := orgs_before_2022_cells <$> organizations_before_2022 db |}.

(** *** The per-organization revenue of the two CTEs

    [SELECT organization_id, SUM(amount_usd) AS total_revenue_2021
     FROM monthly_charges_2021 GROUP BY 1 HAVING cond]. *)
Record earner := {
  e_organization_id : option Z;
  e_total_revenue_2021 : option Z
}.

Definition earners (having : option Z → option bool)
    (mc : list MonthlyCharges.row) : list earner :=
  filter (λ a, holds (having (e_total_revenue_2021 a)))
    ((λ g, {| e_organization_id := g.1;
              e_total_revenue_2021 :=
                SUM (MonthlyCharges.amount_usd <$> g.2) |})
       <$> GROUP_BY MonthlyCharges.organization_id mc).

Definition on_organization_id (a : earner) (b : Organizations.row)
    : option bool :=
  sql_eq (e_organization_id a) (Organizations.organization_id b).

(** *** get_paying_organizations *)
Definition nonzero_earners : list MonthlyCharges.row → list earner :=
  earners (λ revenue_2021, sql_gt revenue_2021 (Some 0)).

Definition paying_organizations (db : database)
    : list (earner * Organizations.row) :=
  ORDER_BY (desc (λ r, e_total_revenue_2021 r.1) (nulls_first Z.le))
    (INNER_JOIN on_organization_id
       (nonzero_earners (monthly_charges_2021 db))
       (organizations_before_2022 db)).

Definition paying_organizations_cells (r : earner * Organizations.row)
    : list value :=
  let '(a, b) := r in
  [of_int (e_organization_id a);
   Organizations.organization_owner_id b;
   of_int (e_total_revenue_2021 a);
   Organizations.revenue_realized_to_date_usd b;
   Organizations.time_entries_count b;
   Organizations.billable_time_entries_count b;
   Organizations.hours_tracked b;
   Organizations.billable_hours_tracked b;
   Organizations.clients_used b;
   Organizations.projects_used b;
   Organizations.billable_projects_used b;
   Organizations.country b;
   Organizations.industry b;
   Organizations.company_type b;
   Organizations.approximate_employees b;
   Organizations.reported_annual_revenue b].

Definition sql_paying_organizations (db : database) : DataFrame :=
  {| df_columns := select_list PayingOrganizations;
     df_rows := paying_organizations_cells <$> paying_organizations db |}.

(** *** get_outliers_and_mode *)
Definition outlier_earners : list MonthlyCharges.row → list earner :=
  earners (λ revenue_2021,
    sql_or (sql_gt revenue_2021 (Some 22000))
           (sql_between revenue_2021 (Some 90) (Some 250))).

Definition outliers_and_mode (db : database)
    : list (earner * Organizations.row) :=
  ORDER_BY (desc (λ r, e_total_revenue_2021 r.1) (nulls_first Z.le))
    (INNER_JOIN on_organization_id
       (outlier_earners (monthly_charges_2021 db))
       (organizations_before_2022 db)).

Definition outliers_and_mode_cells (r : earner * Organizations.row)
    : list value :=
  let '(a, b) := r in
  [of_int (e_organization_id a);
   of_int (e_total_revenue_2021 a);
   Organizations.organization_owner_id b;
   Organizations.revenue_realized_to_date_usd b;
   Organizations.time_entries_count b;
   Organizations.billable_time_entries_count b;
   Organizations.hours_tracked b;
   Organizations.billable_hours_tracked b;
   Organizations.clients_used b;
   Organizations.projects_used b;
   Organizations.billable_projects_used b;
   Organizations.country b;
   Organizations.industry b;
   Organizations.company_type b;
   Organizations.approximate_employees b;
   Organizations.reported_annual_revenue b].

Definition sql_outliers_and_mode (db : database) : DataFrame :=
  {| df_columns := select_list OutliersAndMode;
     df_rows := outliers_and_mode_cells <$> outliers_and_mode db |}.

(** [CASE WHEN cond THEN a ELSE b END] takes [a] only when [cond] is TRUE. *)
Definition CASE_WHEN {A} (cond : option bool) (a b : A) : A :=
  if decide (holds cond) then a else b.

(** *** get_churn_numbers *)
Record churn_row := {
  ch_organization_id : option Z;
  times_churned : Z;
  times_reactivated : Z;
  times_retained : Z;
  revenue : option Z
}.

Definition COUNT_type (t : string) (g : list MonthlyCharges.row) : Z :=
  COUNT ((λ a, CASE_WHEN (sql_eq (MonthlyCharges.type a) (Some t))
                 (Some 1) None) <$> g).

Definition churn_numbers (db : database) : list churn_row :=
  ORDER_BY (then_by (desc times_churned Z.le) (asc times_reactivated Z.le))
    ((λ g, {| ch_organization_id := g.1;
              times_churned := COUNT_type "Churned" g.2;
              times_reactivated := COUNT_type "Reactivated" g.2;
              times_retained := COUNT_type "Retained" g.2;
              revenue := SUM (MonthlyCharges.amount_usd <$> g.2) |})
       <$> GROUP_BY MonthlyCharges.organization_id (monthly_charges_2021 db)).

Definition churn_cells (r : churn_row) : list value :=
  [of_int (ch_organization_id r); Int (times_churned r);
   Int (times_reactivated r); Int (times_retained r); of_int (revenue r)].

Definition sql_churn_numbers (db : database) : DataFrame :=
  {| df_columns := select_list ChurnNumbers;
     df_rows := churn_cells <$> churn_numbers db |}.

(** *** get_groupby_plan and get_groupby_type

    The two statements differ in the grouping column ([plan] or [type]) and
    in the names of the columns derived from it; [category] stands for that
    column. *)
Definition EXTRACT_MONTH (d : option date) : option Z := month_of_year <$> d.
Definition EXTRACT_QUARTER (d : option date) : option Z :=
  (λ d, (month_of_year d - 1) `div` 3 + 1) <$> d.

Record grouped := {
  g_category : option string;
  g_quarter : option Z;
  g_month : option Z;
  num_charges : Z;
  num_sales_driven : option Z;
  g_revenue : option Z
}.

(** The CTE: [GROUP BY 1,2,3 ORDER BY 1,2,3] over category, quarter, month. *)
Definition groupedby (grouping : MonthlyCharges.row → option string)
    (mc : list MonthlyCharges.row) : list grouped :=
  ORDER_BY
    (then_by (asc g_category (nulls_first String.le))
       (then_by (asc g_quarter (nulls_first Z.le))
                (asc g_month (nulls_first Z.le))))
    ((λ g, {| g_category := g.1.1.1;
              g_quarter := g.1.1.2;
              g_month := g.1.2;
              num_charges := COUNT_star g.2;
              num_sales_driven :=
                SUM ((λ a, CASE_WHEN
                             (sql_eq (MonthlyCharges.is_sales_driven a)
                                     (Some true))
                             (Some 1) (Some 0)) <$> g.2);
              g_revenue := SUM (MonthlyCharges.amount_usd <$> g.2) |})
       <$> GROUP_BY
             (λ a, (grouping a,
                    EXTRACT_QUARTER (MonthlyCharges.charged_on a),
                    EXTRACT_MONTH (MonthlyCharges.charged_on a)))
             mc).

(** [SUM(v) OVER (PARTITION BY key)] at row [r] of [t]; NULL keys fall in
    one partition.  [OVER ()] is the partition by a constant. *)
Definition SUM_OVER {A K} `{EqDecision K} (v : A → option Z)
    (key : A → K) (t : list A) (r : A) : option Z :=
  SUM (v <$> filter (λ x, key x = key r) t).

Record groupby_row := {
  category : option string;
  month : option Z;
  quarter : option Z;
  monthly_count : option Z;
  qtr_count : option Z;
  count_by_category : option Z;
  total_count : option Z;
  monthly_sales_driven : option Z;
  qtr_sales_driven : option Z;
  sales_driven_by_category : option Z;
  total_sales_driven : option Z;
  monthly_revenue : option Z;
  qtr_revenue : option Z;
  revenue_by_category : option Z;
  total_revenue : option Z
}.

Abbreviation count_by_plan := count_by_category (only parsing).
Abbreviation sales_driven_by_plan := sales_driven_by_category (only parsing).
Abbreviation revenue_by_plan := revenue_by_category (only parsing).
Abbreviation count_by_type := count_by_category (only parsing).
Abbreviation sales_driven_by_type := sales_driven_by_category (only parsing).
Abbreviation revenue_by_type := revenue_by_category (only parsing).

Definition by_category_month (x : grouped) := (g_category x, g_month x).
Definition by_category_quarter (x : grouped) := (g_category x, g_quarter x).
Definition over_all (x : grouped) := tt.

Definition windows (cte : list grouped) (r : grouped) : groupby_row :=
  let count x := Some (num_charges x) in
  {| category := g_category r;
     month := g_month r;
     quarter := g_quarter r;
     monthly_count := SUM_OVER count by_category_month cte r;
     qtr_count := SUM_OVER count by_category_quarter cte r;
     count_by_category := SUM_OVER count g_category cte r;
     total_count := SUM_OVER count over_all cte r;
     monthly_sales_driven := SUM_OVER num_sales_driven by_category_month cte r;
     qtr_sales_driven := SUM_OVER num_sales_driven by_category_quarter cte r;
     sales_driven_by_category := SUM_OVER num_sales_driven g_category cte r;
     total_sales_driven := SUM_OVER num_sales_driven over_all cte r;
     monthly_revenue := SUM_OVER g_revenue by_category_month cte r;
     qtr_revenue := SUM_OVER g_revenue by_category_quarter cte r;
     revenue_by_category := SUM_OVER g_revenue g_category cte r;
     total_revenue := SUM_OVER g_revenue over_all cte r |}.

(** The outer SELECT over the CTE, [ORDER BY 1,2,3]: category, month,
    quarter. *)
Definition window_sums (cte : list grouped) : list groupby_row :=
  ORDER_BY
    (then_by (asc category (nulls_first String.le))
       (then_by (asc month (nulls_first Z.le))
                (asc quarter (nulls_first Z.le))))
    (windows cte <$> cte).

Definition groupedby_plans : list MonthlyCharges.row → list grouped :=
  groupedby MonthlyCharges.plan.
Definition groupedby_types : list MonthlyCharges.row → list grouped :=
  groupedby MonthlyCharges.type.

Definition groupby_plan (db : database) : list groupby_row :=
  window_sums (groupedby_plans (monthly_charges_2021 db)).
Definition groupby_type (db : database) : list groupby_row :=
  window_sums (groupedby_types (monthly_charges_2021 db)).

Definition groupby_cells (r : groupby_row) : list value :=
  [of_str (category r); of_int (month r); of_int (quarter r);
   of_int (monthly_count r); of_int (qtr_count r);
   of_int (count_by_category r); of_int (total_count r);
   of_int (monthly_sales_driven r); of_int (qtr_sales_driven r);
   of_int (sales_driven_by_category r); of_int (total_sales_driven r);
   of_int (monthly_revenue r); of_int (qtr_revenue r);
   of_int (revenue_by_category r); of_int (total_revenue r)].

Definition sql_groupby_plan (db : database) : DataFrame :=
  {| df_columns := select_list GroupbyPlan;
     df_rows := groupby_cells <$> groupby_plan db |}.

Definition sql_groupby_type (db : database) : DataFrame :=
  {| df_columns := select_list GroupbyType;
     df_rows := groupby_cells <$> groupby_type db |}.

(** ** Paths, files and the console *)

Declare Scope path_scope.
Delimit Scope path_scope with path.

(** A path is its list of segments.  [p / name] appends [name], which is a
    file name, one segment: "the name you wish the generated CSV to take"
    of the docstrings, or the credential file of the environment. *)
Abbreviation Path := (list string).

Definition joinpath (p : Path) (name : string) : Path := p ++ [name].
Infix "/" := joinpath : path_scope.

Definition parent (p : Path) : Path := take (length p - 1) p.

Definition path_str (p : Path) : string :=
  foldr (λ s acc, "/" +:+ s +:+ acc) "" p.

(** A CSV file: its records in order, each a list of fields. *)
Abbreviation Csv := (list (list string)).

Record FileSystem := {
  directories : gset Path;
  files : gmap Path Csv
}.

(** What the process asks of the outside, in order: the credential file it
    loads, the client it builds, the statements it sends, the files it opens
    for writing. *)
Inductive event :=
  | LoadCredentials (file : Path)
  | BuildClient (project : option string)
  | Query (s : statement)
  | WriteCsv (destination : Path).

Record World := {
  fs : FileSystem;
  stdout : list string;
  trace : list event
}.

Inductive exception :=
  | TypeError
  | OSError
  | Raised (what : string).

(** A computation runs on a world and either returns or raises; the world
    reached so far is kept in both cases. *)
Definition M (A : Type) : Type := World → (exception + A) * World.

Definition raise {A} (e : exception) : M A := λ w, (inl e, w).

Global Instance M_ret : MRet M := λ A a w, (inr a, w).
Global Instance M_bind : MBind M :=
  λ A B k m w,
    match m w with
    | (inr a, w') => k a w'
    | (inl e, w') => (inl e, w')
    end.

Definition print (line : string) : M unit :=
  λ w, (inr (), {| fs := fs w; stdout := stdout w ++ [line];
                   trace := trace w |}).

Definition logged (events : list event) (w : World) : World :=
  {| fs := fs w; stdout := stdout w; trace := trace w ++ events |}.

Definition log (e : event) : M unit := λ w, (inr (), logged [e] w).

(** Opening a file for writing fails when its directory is missing or the
    path is a directory; a file already there is replaced. *)
Definition write_file (destination : Path) (content : Csv) : M unit :=
  λ w,
    if decide (parent destination ∈ directories (fs w)
               ∧ destination ∉ directories (fs w))
    then (inr (),
          {| fs := {| directories := directories (fs w);
                      files := <[destination := content]> (files (fs w)) |};
             stdout := stdout w;
             trace := trace w |})
    else (inl OSError, w).

(** ** The warehouse client *)

Definition sql (s : statement) : database → DataFrame :=
  match s with
  | MonthlyCharges2021 => sql_monthly_charges_2021
  | OrgsBefore2022 => sql_orgs_before_2022
  | PayingOrganizations => sql_paying_organizations
  | ChurnNumbers => sql_churn_numbers
  | OutliersAndMode => sql_outliers_and_mode
  | GroupbyPlan => sql_groupby_plan
  | GroupbyType => sql_groupby_type
  end.

(** The client answers a statement with its result on the warehouse's
    tables, or raises when the job is refused or fails. *)
Record Client := {
  warehouse : database;
  failure : statement → option exception
}.

Definition query (c : Client) (s : statement) : M DataFrame :=
  log (Query s);;
  match failure c s with
  | Some e => raise e
  | None => mret (sql s (warehouse c))
  end.

(** ** The routines *)

Section routines.
(** How pandas prints a cell. *)
Context (render : value → string).
(** The working directory of the process and the client built at import. *)
Context (cwd : Path) (client : Client).

Definition BASE_DIR : Path := parent cwd.
Definition DATA_DIR : Path := (BASE_DIR / "data")%path.
Definition RAW_DIR : Path := (DATA_DIR / "raw")%path.
Definition PROCESSED_DIR : Path := (DATA_DIR / "processed")%path.

(** [df.to_csv(destination, index=False, header=True)]: the header, then
    one record per row. *)
Definition csv (df : DataFrame) : Csv :=
  df_columns df :: (map render <$> df_rows df).

Definition to_csv (df : DataFrame) (destination : Path) : M unit :=
  log (WriteCsv destination);;
  write_file destination (csv df).

Definition created (target_file_name : string) (dir : Path) : string :=
  "CSV file created. File name is " +:+ target_file_name
    +:+ " and location is " +:+ path_str dir.

Definition get_monthly_charges_2021 (target_file_name : string) : M unit :=
  let destination := (RAW_DIR / target_file_name)%path in
  df ← query client MonthlyCharges2021;
  to_csv df destination;;
  print (created target_file_name RAW_DIR).

Definition get_orgs_before_2022 (target_file_name : string) : M unit :=
  let destination := (RAW_DIR / target_file_name)%path in
  df ← query client OrgsBefore2022;
  to_csv df destination;;
  print (created target_file_name RAW_DIR).

Definition get_paying_organizations (target_file_name : string) : M unit :=
  let destination := (PROCESSED_DIR / target_file_name)%path in
  df ← query client PayingOrganizations;
  to_csv df destination;;
  print (created target_file_name PROCESSED_DIR).

Definition get_churn_numbers (target_file_name : string) : M unit :=
  let destination := (PROCESSED_DIR / target_file_name)%path in
  df ← query client ChurnNumbers;
  to_csv df destination;;
  print (created target_file_name PROCESSED_DIR).

Definition get_outliers_and_mode (target_file_name : string) : M unit :=
  let destination := (PROCESSED_DIR / target_file_name)%path in
  df ← query client OutliersAndMode;
  to_csv df destination;;
  print (created target_file_name PROCESSED_DIR).

Definition get_groupby_plan (target_file_name : string) : M unit :=
  let destination := (PROCESSED_DIR / target_file_name)%path in
  df ← query client GroupbyPlan;
  to_csv df destination;;
  print (created target_file_name PROCESSED_DIR).

Definition get_groupby_type (target_file_name : string) : M unit :=
  let destination := (PROCESSED_DIR / target_file_name)%path in
  df ← query client GroupbyType;
  to_csv df destination;;
  print (created target_file_name PROCESSED_DIR).

(** The routine that sends a given statement, and where it writes. *)
Definition routine (s : statement) : string → M unit :=
  match s with
  | MonthlyCharges2021 => get_monthly_charges_2021
  | OrgsBefore2022 => get_orgs_before_2022
  | PayingOrganizations => get_paying_organizations
  | ChurnNumbers => get_churn_numbers
  | OutliersAndMode => get_outliers_and_mode
  | GroupbyPlan => get_groupby_plan
  | GroupbyType => get_groupby_type
  end.

Definition category_dir (s : statement) : Path :=
  match s with
  | MonthlyCharges2021 | OrgsBefore2022 => RAW_DIR
  | _ => PROCESSED_DIR
  end.
End routines.

(** ** Import of the module and a run

    The module body reads the environment (after [load_dotenv]), loads the
    service-account credentials and builds the client; the caller then
    invokes routines one after the other.  The two library constructors are
    left open. *)
Section session.
Context (render : value → string) (cwd : Path).
Context {Credentials : Type}.
Context (from_service_account_file : Path → exception + Credentials).
Context (bigquery_Client : Credentials → option string → exception + Client).

Definition lift {A} (r : exception + A) : M A :=
  match r with inl e => raise e | inr a => mret a end.

(** [os.getenv] gives [None] for a variable that is not set, and
    [BASE_DIR / None] is a [TypeError]. *)
Definition import_module (environ : gmap string string) : M Client :=
  let SERVICE_ACCOUNT_FILE := environ !! "SERVICE_ACCOUNT_FILE" in
  let PROJECT_ID := environ !! "PROJECT_ID" in
  match SERVICE_ACCOUNT_FILE with
  | None => raise TypeError
  | Some file =>
      log (LoadCredentials (BASE_DIR cwd / file)%path);;
      creds ← lift (from_service_account_file (BASE_DIR cwd / file)%path);
      log (BuildClient PROJECT_ID);;
      lift (bigquery_Client creds PROJECT_ID)
  end.

Fixpoint invoke_all (client : Client) (calls : list (statement * string))
    : M unit :=
  match calls with
  | [] => mret ()
  | (s, target_file_name) :: calls =>
      routine render cwd client s target_file_name;;
      invoke_all client calls
  end.

Definition run (environ : gmap string string)
    (calls : list (statement * string)) : M unit :=
  client ← import_module environ;
  invoke_all client calls.
End session.

(** ** Vocabulary of the properties *)

(** The sum of the inputs that are not NULL, 0 when there is none. *)
Definition sum_or_zero (l : list (option Z)) : Z :=
  foldr Z.add 0 (default 0 <$> l).

(** The sum of an organization's [amount_usd] over all its rows. *)
Definition org_total (mc : list MonthlyCharges.row) (id : Z) : option Z :=
  SUM (MonthlyCharges.amount_usd
         <$> filter (λ c, MonthlyCharges.organization_id c = Some id) mc).



(** The rows of [l] that carry a key for the last time: one row per
    distinct key. *)
Fixpoint distinct_on {A K} `{EqDecision K} (key : A → K) (l : list A)
    : list A :=
  match l with
  | [] => []
  | x :: l =>
      if decide (key x ∈ key <$> l) then distinct_on key l
      else x :: distinct_on key l
  end.

Definition sumZ (l : list Z) : Z := foldr Z.add 0 l.

(** The relations of C2 at one output row. *)
Definition consistent_subtotals (out : list groupby_row) (r : groupby_row)
    : Prop :=
  let of_category := filter (λ x, category x = category r) out in
  SUM (monthly_count <$> distinct_on month of_category) = count_by_category r
  ∧ SUM (count_by_category <$> distinct_on category out) = total_count r
  ∧ SUM (monthly_sales_driven <$> distinct_on month of_category)
    = sales_driven_by_category r
  ∧ SUM (sales_driven_by_category <$> distinct_on category out)
    = total_sales_driven r
  ∧ SUM (monthly_revenue <$> distinct_on month of_category)
    = revenue_by_category r
  ∧ SUM (revenue_by_category <$> distinct_on category out) = total_revenue r.

(** Lexicographic comparison of pairs of keys, and its strict part. *)
Definition strictly {A} (R : relation A) : relation A :=
  λ a b, R a b ∧ a ≠ b.

Definition lexicographic {A B} (R1 : relation A) (R2 : relation B)
    : relation (A * B) :=
  λ p q, strictly R1 p.1 q.1 ∨ (p.1 = q.1 ∧ R2 p.2 q.2).

(** The order of [ORDER BY 1, 2, 3] on (plan or type, month, quarter). *)
Definition by_category_month_quarter : relation groupby_row :=
  λ x y,
    lexicographic (nulls_first String.le)
      (lexicographic (nulls_first Z.le) (nulls_first Z.le))
      (category x, (month x, quarter x)) (category y, (month y, quarter y)).

(** A result set dumps a table when it has all the table's columns and, for
    every row of the table, the row with all its cells. *)
Definition dumps {A} (columns : list string) (cells : A → list value)
    (table : list A) (df : DataFrame) : Prop :=
  (∀ c, c ∈ columns → c ∈ df_columns df)
  ∧ (∀ r, r ∈ table → cells r ∈ df_rows df).

(** Where a routine writes: the raw directory for the two table extracts,
    the processed directory for the other five. *)
Definition destination (cwd : Path) (s : statement)
    (target_file_name : string) : Path :=
  (category_dir cwd s / target_file_name)%path.

(** The world after a successful call of the routine of [s]. *)
Definition written (render : value → string) (cwd : Path) (client : Client)
    (s : statement) (target_file_name : string) (w : World) : World :=
  {| fs := {| directories := directories (fs w);
              files := <[destination cwd s target_file_name :=
                           csv render (sql s (warehouse client))]>
                         (files (fs w)) |};
     stdout := stdout w
               ++ [created target_file_name (category_dir cwd s)];
     trace := trace w
              ++ [Query s; WriteCsv (destination cwd s target_file_name)] |}.

Definition is_setup_event (e : event) : Prop :=
  match e with
  | LoadCredentials _ | BuildClient _ => True
  | Query _ | WriteCsv _ => False
  end.

(** ** Sample data *)

Definition charge (org amount : Z) (plan type : string) (m d : Z)
    (sales : bool) : MonthlyCharges.row :=
  {| MonthlyCharges.organization_id := Some org;
     MonthlyCharges.amount_usd := Some amount;
     MonthlyCharges.type := Some type;
     MonthlyCharges.charged_on :=
       Some {| year := 2021; month_of_year := m; day := d |};
     MonthlyCharges.plan := Some plan;
     MonthlyCharges.is_sales_driven := Some sales |}.

Definition organization (org : Z) (kind : string) : Organizations.row :=
  {| Organizations.organization_id := Some org;
     Organizations.organization_owner_id := Int (org + 1000);
     Organizations.created_at := Date 2020 1 1;
     Organizations.has_active_subscription := Bool true;
     Organizations.current_subscription_plan := Str "starter";
     Organizations.current_billing_period := Str "month";
     Organizations.first_billed_user_count := Int 3;
     Organizations.revenue_realized_to_date_usd := Int 500;
     Organizations.time_entries_count := Int 40;
     Organizations.billable_time_entries_count := Int 10;
     Organizations.hours_tracked := Int 80;
     Organizations.billable_hours_tracked := Int 20;
     Organizations.clients_used := Int 2;
     Organizations.projects_used := Int 5;
     Organizations.billable_projects_used := Int 1;
     Organizations.country := Str "EE";
     Organizations.industry := Null;
     Organizations.company_type := Str kind;
     Organizations.approximate_employees := Int 12;
     Organizations.reported_annual_revenue := Null |}.

(** The scenario of the paying-organizations extract, with A = 1, B = 2. *)
Definition scenario_db : database :=
  {| monthly_charges_2021 :=
       [charge 1 100 "starter" "Retained" 1 15 false;
        charge 1 (-50) "starter" "Retained" 2 15 false;
        charge 2 0 "starter" "Churned" 2 1 false];
     organizations_before_2022 :=
       [organization 1 "agency"; organization 2 "freelancer"] |}.

(** The one row of [paying_organizations scenario_db]. *)
Definition scenario_row : earner * Organizations.row :=
  ({| e_organization_id := Some 1; e_total_revenue_2021 := Some 50 |},
   organization 1 "agency").

Definition sample_db : database :=
  {| monthly_charges_2021 :=
       [charge 1 100 "starter" "Retained" 1 15 false;
        charge 1 (-50) "starter" "Retained" 2 15 false;
        charge 2 0 "starter" "Churned" 2 1 false;
        charge 3 200 "premium" "Retained" 4 1 true;
        charge 3 50 "premium" "Reactivated" 4 20 true;
        charge 3 30000 "premium" "Retained" 7 1 true;
        charge 4 120 "premium" "Churned" 7 9 false];
     organizations_before_2022 :=
       [organization 1 "agency"; organization 3 "enterprise";
        organization 4 "freelancer"] |}.

(** A row of [groupby_plan sample_db] and one of [groupby_type sample_db]. *)
Definition sample_plan_row : groupby_row :=
  {| category := Some "starter"; month := Some 2; quarter := Some 1;
     monthly_count := Some 2; qtr_count := Some 3;
     count_by_category := Some 3; total_count := Some 7;
     monthly_sales_driven := Some 0; qtr_sales_driven := Some 0;
     sales_driven_by_category := Some 0; total_sales_driven := Some 3;
     monthly_revenue := Some (-50); qtr_revenue := Some 50;
     revenue_by_category := Some 50; total_revenue := Some 30420 |}.

Definition sample_type_row : groupby_row :=
  {| category := Some "Churned"; month := Some 7; quarter := Some 3;
     monthly_count := Some 1; qtr_count := Some 1;
     count_by_category := Some 2; total_count := Some 7;
     monthly_sales_driven := Some 0; qtr_sales_driven := Some 0;
     sales_driven_by_category := Some 0; total_sales_driven := Some 3;
     monthly_revenue := Some 120; qtr_revenue := Some 120;
     revenue_by_category := Some 120; total_revenue := Some 30420 |}.

Definition show (v : value) : string :=
  match v with
  | Null => ""
  | Int z => pretty z
  | Str s => s
  | Bool true => "True"
  | Bool false => "False"
  | Date y m d => pretty y +:+ "-" +:+ pretty m +:+ "-" +:+ pretty d
  end.

Definition sample_cwd : Path := ["home"; "notebooks"].

Definition sample_world : World :=
  {| fs := {| directories :=
                {[ ["home"; "data"]; ["home"; "data"; "raw"];
                   ["home"; "data"; "processed"] ]};
              files := ∅ |};
     stdout := [];
     trace := [] |}.

Definition sample_client : Client :=
  {| warehouse := sample_db; failure := λ _, None |}.

Definition scenario_client : Client :=
  {| warehouse := scenario_db; failure := λ _, None |}.

Definition empty_client : Client :=
  {| warehouse := {| monthly_charges_2021 := [];
                     organizations_before_2022 := [] |};
     failure := λ _, None |}.


(** Library constructors that accept whatever they are given. *)
Definition sample_credentials (file : Path) : exception + unit := inr ().
Definition missing_credentials (file : Path) : exception + unit :=
  inl (Raised "FileNotFoundError").
Definition sample_Client (creds : unit) (project : option string)
    : exception + Client :=
  inr sample_client.


(** ** Vocabulary of the further properties *)

(** The rows of the charges table of one organization id (NULL included),
    and how many of them have a given type. *)
Definition charges_of (mc : list MonthlyCharges.row) (id : option Z)
    : list MonthlyCharges.row :=
  filter (λ c, MonthlyCharges.organization_id c = id) mc.

Definition count_of_type (t : string) (g : list MonthlyCharges.row) : Z :=
  Z.of_nat (length (filter (λ c, MonthlyCharges.type c = Some t) g)).

Definition known_type (c : MonthlyCharges.row) : Prop :=
  MonthlyCharges.type c = Some "Churned"
  ∨ MonthlyCharges.type c = Some "Reactivated"
  ∨ MonthlyCharges.type c = Some "Retained".

Global Instance known_type_dec c : Decision (known_type c).
Proof. unfold known_type. apply _. Defined.

(** The month and quarter of a charge, the key of its group in the CTE of
    the group-by statements, and the quarter a month lies in. *)
Definition month_of (c : MonthlyCharges.row) : option Z :=
  EXTRACT_MONTH (MonthlyCharges.charged_on c).
Definition quarter_of (c : MonthlyCharges.row) : option Z :=
  EXTRACT_QUARTER (MonthlyCharges.charged_on c).

Definition charge_key (grouping : MonthlyCharges.row → option string)
    (c : MonthlyCharges.row) : option string * option Z * option Z :=
  (grouping c, quarter_of c, month_of c).

Definition grouped_key (g : grouped) : option string * option Z * option Z :=
  (g_category g, g_quarter g, g_month g).

Definition quarter_of_month (m : option Z) : option Z :=
  (λ m, (m - 1) `div` 3 + 1) <$> m.

(** Whether a charge counts as sales driven, as the CASE of the statements
    decides it, and the number of such charges. *)
Definition sales_driven (c : MonthlyCharges.row) : Prop :=
  MonthlyCharges.is_sales_driven c = Some true.

Definition number_of (l : list MonthlyCharges.row) : option Z :=
  Some (Z.of_nat (length l)).

(** The charges behind the four windows of an output row: those of its
    category in its month, in its quarter, in any month. *)
Definition in_month (grouping : MonthlyCharges.row → option string)
    (r : groupby_row) (c : MonthlyCharges.row) : Prop :=
  grouping c = category r ∧ month_of c = month r.

Definition in_quarter (grouping : MonthlyCharges.row → option string)
    (r : groupby_row) (c : MonthlyCharges.row) : Prop :=
  grouping c = category r ∧ quarter_of c = quarter r.

Definition in_category (grouping : MonthlyCharges.row → option string)
    (r : groupby_row) (c : MonthlyCharges.row) : Prop :=
  grouping c = category r.

Global Instance in_month_dec grouping r c : Decision (in_month grouping r c).
Proof. unfold in_month. apply _. Defined.
Global Instance in_quarter_dec grouping r c :
  Decision (in_quarter grouping r c).
Proof. unfold in_quarter. apply _. Defined.
Global Instance in_category_dec grouping r c :
  Decision (in_category grouping r c).
Proof. unfold in_category. apply _. Defined.
Global Instance sales_driven_dec c : Decision (sales_driven c).
Proof. unfold sales_driven. apply _. Defined.

(** Every charge date has a calendar month. *)
Definition calendar_months (mc : list MonthlyCharges.row) : Prop :=
  ∀ c d, c ∈ mc → MonthlyCharges.charged_on c = Some d →
         1 ≤ month_of_year d ≤ 12.

(** The quarter relations of the windows at one output row: the monthly
    sums over the distinct months of the row's category and quarter give
    the quarter's sum, the quarterly sums over the distinct quarters of the
    category give the category's sum. *)
Definition quarter_subtotals (monthly qtr by_category : groupby_row → option Z)
    (out : list groupby_row) (r : groupby_row) : Prop :=
  SUM (monthly <$> distinct_on month
         (filter (λ x, category x = category r ∧ quarter x = quarter r) out))
  = qtr r
  ∧ SUM (qtr <$> distinct_on quarter
           (filter (λ x, category x = category r) out))
    = by_category r.


(** ** Further sample data *)

Definition sample_churn_row : churn_row :=
  {| ch_organization_id := Some 3; times_churned := 0;
     times_reactivated := 1; times_retained := 2; revenue := Some 30250 |}.

Definition sample_outlier_row : earner * Organizations.row :=
  ({| e_organization_id := Some 3; e_total_revenue_2021 := Some 30250 |},
   organization 3 "enterprise").

Definition empty_db : database :=
  {| monthly_charges_2021 := []; organizations_before_2022 := [] |}.



Definition sample_environ : gmap string string :=
  {[ "SERVICE_ACCOUNT_FILE" := "key.json"; "PROJECT_ID" := "analytics" ]}.
(** * Properties *)

(** ** Aggregates, groups and joins *)

Lemma sum_or_zero_all_null (l : list (option Z)) :
  Forall (λ x, x = None) l → sum_or_zero l = 0.
Proof.
  unfold sum_or_zero. induction 1 as [|x l -> _ IH]; csimpl in *; lia.
Qed.

Lemma SUM_cases (l : list (option Z)) :
  (SUM l = None ∧ Forall (λ x, x = None) l)
  ∨ (SUM l = Some (sum_or_zero l) ∧ Exists is_Some l).
Proof.
  induction l as [|[v|] l IH]; simpl.
  - left. split; [done | constructor].
  - right. split; [| by left; eexists].
    change (sum_or_zero (Some v :: l)) with (v + sum_or_zero l).
    destruct IH as [[-> Hn] | [-> _]]; simpl; [| done].
    by rewrite sum_or_zero_all_null.
  - destruct IH as [[-> Hn] | [-> He]].
    + left. split; [done | by constructor].
    + right. split; [done | by right].
Qed.

Lemma SUM_default (l : list (option Z)) : default 0 (SUM l) = sum_or_zero l.
Proof.
  destruct (SUM_cases l) as [[-> Hn] | [-> _]]; simpl; [| done].
  by rewrite sum_or_zero_all_null.
Qed.

Lemma SUM_is_Some (l : list (option Z)) : is_Some (SUM l) ↔ Exists is_Some l.
Proof.
  destruct (SUM_cases l) as [[-> Hn] | [-> He]].
  - split; [by intros [? ?] |].
    intros He. apply Exists_exists in He as (x & Hx & [v ->]).
    rewrite Forall_forall in Hn. by specialize (Hn _ Hx).
  - split; [done | by eexists].
Qed.

Lemma filter_none {A} (P : A → Prop) `{!∀ x, Decision (P x)} (l : list A) :
  (∀ x, x ∈ l → ¬ P x) → filter P l = [].
Proof.
  induction l as [|x l IH]; intros Hno; [done |].
  rewrite filter_cons_False by (apply Hno; left).
  apply IH. intros y Hy. apply Hno. by right.
Qed.

Lemma elem_of_GROUP_BY {A K} `{EqDecision K} (key : A → K) (t : list A) g :
  g ∈ GROUP_BY key t ↔
  (∃ r, r ∈ t ∧ key r = g.1) ∧ g.2 = filter (λ r, key r = g.1) t.
Proof.
  unfold GROUP_BY. rewrite list_elem_of_fmap. split.
  - intros (k & -> & Hk). simpl. split; [| done].
    apply elem_of_remove_dups, list_elem_of_fmap in Hk as (r & -> & Hr).
    by exists r.
  - intros [(r & Hr & Hk) Hg]. exists g.1. split.
    + destruct g as [k rows]. simpl in *. by rewrite Hg.
    + apply elem_of_remove_dups, list_elem_of_fmap. by exists r.
Qed.

Lemma elem_of_INNER_JOIN {A B} (on : A → B → option bool) l r
    (a : A) (b : B) :
  (a, b) ∈ INNER_JOIN on l r ↔ a ∈ l ∧ b ∈ r ∧ holds (on a b).
Proof.
  unfold INNER_JOIN. rewrite list_elem_of_bind. split.
  - intros (a' & Hab & Ha). apply list_elem_of_fmap in Hab as (b' & Heq & Hb).
    simplify_eq. apply list_elem_of_filter in Hb as [Hon Hb]. done.
  - intros (Ha & Hb & Hon). exists a. split; [| done].
    apply list_elem_of_fmap. exists b. split; [done |].
    by apply list_elem_of_filter.
Qed.

Lemma elem_of_ORDER_BY {A} (R : relation A) `{!RelDecision R} (l : list A) x :
  x ∈ ORDER_BY R l ↔ x ∈ l.
Proof. unfold ORDER_BY. by rewrite merge_sort_Permutation. Qed.

(** ** Revenue per organization *)

Lemma elem_of_earners having mc a :
  a ∈ earners having mc ↔
  (∃ c, c ∈ mc ∧ MonthlyCharges.organization_id c = e_organization_id a)
  ∧ e_total_revenue_2021 a =
      SUM (MonthlyCharges.amount_usd
             <$> filter (λ c, MonthlyCharges.organization_id c
                              = e_organization_id a) mc)
  ∧ holds (having (e_total_revenue_2021 a)).
Proof.
  unfold earners. rewrite list_elem_of_filter, list_elem_of_fmap. split.
  - intros (Hh & [k rows] & -> & Hg).
    apply elem_of_GROUP_BY in Hg as [Hk Hrows]. simpl in *. by subst rows.
  - intros (Hk & Htot & Hh). split; [done |].
    exists (e_organization_id a,
            filter (λ c, MonthlyCharges.organization_id c
                         = e_organization_id a) mc).
    split; [destruct a; simpl in *; by rewrite Htot |].
    by apply elem_of_GROUP_BY.
Qed.

Lemma org_total_no_rows mc id :
  (∀ c, c ∈ mc → MonthlyCharges.organization_id c ≠ Some id) →
  org_total mc id = None.
Proof.
  intros Hno. unfold org_total.
  by rewrite filter_none.
Qed.



Lemma holds_sql_gt x y : holds (sql_gt x (Some y)) ↔ ∃ v, x = Some v ∧ y < v.
Proof.
  unfold holds, sql_gt, sql_cmp. destruct x as [v|].
  - split.
    + intros [= Hgt]. exists v. split; [done |]. apply Z.gtb_lt in Hgt. lia.
    + intros (v' & [= <-] & Hlt). f_equal. apply Z.gtb_lt. lia.
  - split; [done | by intros (? & ? & _)].
Qed.

Lemma holds_sql_between x lo hi :
  holds (sql_between x (Some lo) (Some hi)) ↔ ∃ v, x = Some v ∧ lo ≤ v ≤ hi.
Proof.
  unfold holds, sql_between, sql_ge, sql_le, sql_cmp. destruct x as [v|].
  - rewrite Z.geb_leb. split.
    + intros Hb. exists v. split; [done |].
      destruct (Z.leb_spec lo v), (Z.leb_spec v hi); simpl in Hb; done || lia.
    + intros (v' & [= <-] & Hlo & Hhi).
      apply Z.leb_le in Hlo, Hhi. by rewrite Hlo, Hhi.
  - split; [done | by intros (? & ? & _)].
Qed.

Lemma holds_sql_or p q : holds (sql_or p q) ↔ holds p ∨ holds q.
Proof.
  unfold holds. destruct p as [[]|], q as [[]|]; simpl; intuition congruence.
Qed.



(** The scenario, evaluated: one row, organization 1 with revenue 50. *)
Example paying_organizations_scenario :
  take 3 <$> df_rows (sql PayingOrganizations scenario_db)
  = [[Int 1; Int 1001; Int 50]].
Proof. reflexivity. Qed.


Example outliers_and_mode_sample :
  take 2 <$> df_rows (sql OutliersAndMode sample_db)
  = [[Int 3; Int 30250]; [Int 4; Int 120]].
Proof. reflexivity. Qed.

Example churn_numbers_sample :
  df_rows (sql ChurnNumbers sample_db)
  = [[Int 2; Int 1; Int 0; Int 0; Int 0];
     [Int 4; Int 1; Int 0; Int 0; Int 120];
     [Int 1; Int 0; Int 0; Int 2; Int 50];
     [Int 3; Int 0; Int 1; Int 2; Int 30250]].
Proof. reflexivity. Qed.

(** ** Subtotals of partitioned sums *)

Lemma sum_or_zero_sumZ (l : list (option Z)) :
  sum_or_zero l = sumZ (default 0 <$> l).
Proof. done. Qed.

Lemma distinct_on_keys {A K} `{EqDecision K} (key : A → K) (l : list A) :
  key <$> distinct_on key l = remove_dups (key <$> l).
Proof.
  induction l as [|x l IH]; csimpl; [done |].
  destruct (decide_rel elem_of (key x) (key <$> l)); [done |].
  csimpl. by rewrite IH.
Qed.

Lemma distinct_on_subseteq {A K} `{EqDecision K} (key : A → K)
    (l : list A) x :
  x ∈ distinct_on key l → x ∈ l.
Proof.
  induction l as [|y l IH]; simpl; [done |].
  case_decide; rewrite ?elem_of_cons; intuition.
Qed.

Lemma sumZ_add_at {K} `{EqDecision K} (a : K) (c : Z) (f : K → Z)
    (ks : list K) :
  NoDup ks →
  sumZ ((λ k, if decide (a = k) then c + f k else f k) <$> ks)
  = (if decide (a ∈ ks) then c else 0) + sumZ (f <$> ks).
Proof.
  unfold sumZ. induction 1 as [|k ks Hk _ IH]; csimpl; [done |].
  rewrite IH.
  destruct (decide (a = k)) as [Heq | Hne],
    (decide (a ∈ k :: ks)) as [Hin | Hnin],
    (decide (a ∈ ks)) as [Hin' | Hnin'];
    rewrite ?elem_of_cons in *; subst; try lia; intuition.
Qed.

Lemma sum_or_zero_partition {A K} `{EqDecision K} (key : A → K)
    (v : A → option Z) (t : list A) (ks : list K) :
  NoDup ks →
  (∀ x, x ∈ t → key x ∈ ks) →
  sumZ ((λ k, sum_or_zero (v <$> filter (λ x, key x = k) t)) <$> ks)
  = sum_or_zero (v <$> t).
Proof.
  intros Hks. induction t as [|x t IH]; intros Hcover.
  - clear. induction ks as [|k ks IHk]; [done |]. rewrite fmap_cons. exact IHk.
  - rewrite fmap_cons. change (sum_or_zero (v x :: (v <$> t)))
      with (default 0 (v x) + sum_or_zero (v <$> t)).
    rewrite <- IH by (intros y Hy; apply Hcover; by right).
    transitivity
      (sumZ ((λ k, if decide (key x = k)
                   then default 0 (v x)
                        + sum_or_zero (v <$> filter (λ y, key y = k) t)
                   else sum_or_zero (v <$> filter (λ y, key y = k) t)) <$> ks)).
    + f_equal. apply list_fmap_ext. intros _ k _. rewrite filter_cons.
      by destruct (decide (key x = k)).
    + rewrite sumZ_add_at by done.
      by rewrite decide_True by (apply Hcover; left).
Qed.

Lemma some_partition {A K} `{EqDecision K} (key : A → K) (v : A → option Z)
    (t : list A) (ks : list K) :
  (∀ x, x ∈ t → key x ∈ ks) →
  Exists is_Some ((λ k, SUM (v <$> filter (λ x, key x = k) t)) <$> ks)
  ↔ Exists is_Some (v <$> t).
Proof.
  intros Hcover. rewrite !Exists_exists. split.
  - intros (s & Hs & Hsome). apply list_elem_of_fmap in Hs as (k & -> & _).
    apply SUM_is_Some, Exists_exists in Hsome as (o & Ho & Hsome).
    exists o. split; [| done].
    apply list_elem_of_fmap in Ho as (x & -> & Hx).
    apply list_elem_of_filter in Hx as [_ Hx]. by apply list_elem_of_fmap_2.
  - intros (o & Ho & Hsome). apply list_elem_of_fmap in Ho as (x & -> & Hx).
    exists (SUM (v <$> filter (λ y, key y = key x) t)). split.
    + apply list_elem_of_fmap. exists (key x). split; [done | by apply Hcover].
    + apply SUM_is_Some, Exists_exists. exists (v x). split; [| done].
      apply list_elem_of_fmap_2. by apply list_elem_of_filter.
Qed.

(** Summing the sums of the partitions gives the sum of the whole. *)
Lemma SUM_partition {A K} `{EqDecision K} (key : A → K) (v : A → option Z)
    (t : list A) (ks : list K) :
  NoDup ks →
  (∀ x, x ∈ t → key x ∈ ks) →
  SUM ((λ k, SUM (v <$> filter (λ x, key x = k) t)) <$> ks) = SUM (v <$> t).
Proof.
  intros Hks Hcover.
  pose proof (some_partition key v t ks Hcover) as Hsome.
  assert (Htot : sum_or_zero
                   ((λ k, SUM (v <$> filter (λ x, key x = k) t)) <$> ks)
                 = sum_or_zero (v <$> t)).
  { rewrite <- (sum_or_zero_partition key v t ks Hks Hcover).
    rewrite sum_or_zero_sumZ, <- list_fmap_compose. f_equal.
    apply list_fmap_ext. intros _ k _. simpl. apply SUM_default. }
  destruct (SUM_cases ((λ k, SUM (v <$> filter (λ x, key x = k) t)) <$> ks))
    as [[-> Hn1] | [-> He1]], (SUM_cases (v <$> t)) as [[-> Hn2] | [-> He2]].
  - done.
  - apply Hsome in He2. apply Exists_exists in He2 as (o & Ho & [z ->]).
    rewrite Forall_forall in Hn1. by specialize (Hn1 _ Ho).
  - apply Hsome in He1. apply Exists_exists in He1 as (o & Ho & [z ->]).
    rewrite Forall_forall in Hn2. by specialize (Hn2 _ Ho).
  - by rewrite Htot.
Qed.

Lemma filter_all {A} (P : A → Prop) `{!∀ x, Decision (P x)} (l : list A) :
  (∀ x, x ∈ l → P x) → filter P l = l.
Proof.
  induction l as [|x l IH]; intros Hall; [done |].
  rewrite filter_cons_True by (apply Hall; left).
  f_equal. apply IH. intros y Hy. apply Hall. by right.
Qed.

Lemma SUM_distinct_partition {A B K} `{EqDecision K}
    (key : B → K) (sub : B → option Z) (out : list B)
    (gkey : A → K) (v : A → option Z) (t : list A) :
  (∀ x, x ∈ out → sub x = SUM (v <$> filter (λ y, gkey y = key x) t)) →
  (∀ y, y ∈ t → gkey y ∈ key <$> out) →
  SUM (sub <$> distinct_on key out) = SUM (v <$> t).
Proof.
  intros Hsub Hcover.
  rewrite <- (SUM_partition gkey v t (remove_dups (key <$> out))).
  - rewrite <- distinct_on_keys, <- list_fmap_compose. f_equal.
    apply list_fmap_ext. intros _ x Hx%list_elem_of_lookup_2. simpl.
    by apply Hsub, (distinct_on_subseteq key).
  - apply NoDup_remove_dups.
  - intros y Hy. by apply elem_of_remove_dups, Hcover.
Qed.

Section window_subtotals.
Context (cte : list grouped) (v : grouped → option Z).
Context (monthly by_category overall : groupby_row → option Z).
Context (Hmonthly : ∀ cte g,
           monthly (windows cte g) = SUM_OVER v by_category_month cte g).
Context (Hcategory : ∀ cte g,
           by_category (windows cte g) = SUM_OVER v g_category cte g).
Context (Htotal : ∀ cte g,
           overall (windows cte g) = SUM_OVER v over_all cte g).

Lemma elem_of_window_sums r :
  r ∈ window_sums cte ↔ ∃ g, g ∈ cte ∧ r = windows cte g.
Proof.
  unfold window_sums. rewrite elem_of_ORDER_BY, list_elem_of_fmap.
  split; intros (g & ? & ?); by exists g.
Qed.

Lemma months_of_category_sum r :
  r ∈ window_sums cte →
  SUM (monthly <$> distinct_on month
         (filter (λ x, category x = category r) (window_sums cte)))
  = by_category r.
Proof.
  intros (g & Hg & ->)%elem_of_window_sums. rewrite Hcategory. unfold SUM_OVER.
  simpl.
  rewrite (SUM_distinct_partition month monthly _ g_month v
             (filter (λ y, g_category y = g_category g) cte)); [done | |].
  - intros x [Hcat (g' & Hg' & ->)%elem_of_window_sums]%list_elem_of_filter.
    rewrite Hmonthly. unfold SUM_OVER. simpl in *.
    rewrite list_filter_filter. f_equal. f_equal. apply list_filter_iff.
    intros y. unfold by_category_month. rewrite <- Hcat. split.
    + by intros [= -> ->].
    + by intros [-> ->].
  - intros y [Hcat Hy]%list_elem_of_filter.
    apply list_elem_of_fmap. exists (windows cte y). split; [done |].
    apply list_elem_of_filter. split; [done |].
    apply elem_of_window_sums. by exists y.
Qed.

Lemma categories_sum r :
  r ∈ window_sums cte →
  SUM (by_category <$> distinct_on category (window_sums cte))
  = overall r.
Proof.
  intros (g & Hg & ->)%elem_of_window_sums. rewrite Htotal. unfold SUM_OVER.
  rewrite (filter_all _ cte) by done.
  apply (SUM_distinct_partition category by_category _ g_category v cte).
  - intros x (g' & Hg' & ->)%elem_of_window_sums. by rewrite Hcategory.
  - intros y Hy. apply list_elem_of_fmap. exists (windows cte y).
    split; [done |]. apply elem_of_window_sums. by exists y.
Qed.
End window_subtotals.

Lemma window_sums_consistent cte r :
  r ∈ window_sums cte → consistent_subtotals (window_sums cte) r.
Proof.
  intros Hr. unfold consistent_subtotals. split_and!.
  - by apply (months_of_category_sum cte (λ x, Some (num_charges x))).
  - by apply (categories_sum cte (λ x, Some (num_charges x))).
  - by apply (months_of_category_sum cte num_sales_driven).
  - by apply (categories_sum cte num_sales_driven).
  - by apply (months_of_category_sum cte g_revenue).
  - by apply (categories_sum cte g_revenue).
Qed.

(** C2.  get_groupby_plan and get_groupby_type: at every output row, the
    [monthly_*] column summed over the distinct months of the row's plan
    (type) is the row's [*_by_plan] ([*_by_type]) column, and that column
    summed over the distinct plans (types) is the row's [total_*] column;
    this for the counts, the sales-driven counts and the revenue. *)
Theorem groupby_window_sums_consistent (db : database) :
  (∀ r, r ∈ groupby_plan db →
     let of_plan := filter (λ x, category x = category r) (groupby_plan db) in
     SUM (monthly_count <$> distinct_on month of_plan) = count_by_plan r
     ∧ SUM (count_by_plan <$> distinct_on category (groupby_plan db))
       = total_count r
     ∧ SUM (monthly_sales_driven <$> distinct_on month of_plan)
       = sales_driven_by_plan r
     ∧ SUM (sales_driven_by_plan <$> distinct_on category (groupby_plan db))
       = total_sales_driven r
     ∧ SUM (monthly_revenue <$> distinct_on month of_plan) = revenue_by_plan r
     ∧ SUM (revenue_by_plan <$> distinct_on category (groupby_plan db))
       = total_revenue r)
  ∧ (∀ r, r ∈ groupby_type db →
     let of_type := filter (λ x, category x = category r) (groupby_type db) in
     SUM (monthly_count <$> distinct_on month of_type) = count_by_type r
     ∧ SUM (count_by_type <$> distinct_on category (groupby_type db))
       = total_count r
     ∧ SUM (monthly_sales_driven <$> distinct_on month of_type)
       = sales_driven_by_type r
     ∧ SUM (sales_driven_by_type <$> distinct_on category (groupby_type db))
       = total_sales_driven r
     ∧ SUM (monthly_revenue <$> distinct_on month of_type) = revenue_by_type r
     ∧ SUM (revenue_by_type <$> distinct_on category (groupby_type db))
       = total_revenue r).
Proof.
  split; intros r Hr; by apply window_sums_consistent.
Qed.

Lemma groupby_window_sums_consistent_witness :
  (sample_plan_row ∈ groupby_plan sample_db
   ∧ sample_type_row ∈ groupby_type sample_db)
  ∧ consistent_subtotals (groupby_plan sample_db) sample_plan_row
  ∧ consistent_subtotals (groupby_type sample_db) sample_type_row.
Proof.
  assert (Hplan : sample_plan_row ∈ groupby_plan sample_db).
  { vm_compute. do 3 apply list_elem_of_further. apply list_elem_of_here. }
  assert (Htype : sample_type_row ∈ groupby_type sample_db).
  { vm_compute. apply list_elem_of_further. apply list_elem_of_here. }
  split; [done |].
  destruct (groupby_window_sums_consistent sample_db) as [Hp Ht].
  split; [exact (Hp _ Hplan) | exact (Ht _ Htype)].
Defined.

(** ** Order of the rows *)

Global Instance nulls_first_total {A} (R : relation A) `{!Total R} :
  Total (nulls_first R).
Proof. intros [x|] [y|]; simpl; auto. Qed.

Global Instance nulls_first_trans {A} (R : relation A) `{!Transitive R} :
  Transitive (nulls_first R).
Proof. intros [x|] [y|] [z|]; simpl; try done. apply transitivity. Qed.

Global Instance asc_total {A K} (key : A → K) (R : relation K) `{!Total R} :
  Total (asc key R).
Proof. intros x y. apply (total R). Qed.

Global Instance asc_trans {A K} (key : A → K) (R : relation K)
  `{!Transitive R} : Transitive (asc key R).
Proof. intros x y z. unfold asc. apply transitivity. Qed.

Global Instance desc_total {A K} (key : A → K) (R : relation K) `{!Total R} :
  Total (desc key R).
Proof. intros x y. apply (total R). Qed.

Global Instance desc_trans {A K} (key : A → K) (R : relation K)
  `{!Transitive R} : Transitive (desc key R).
Proof. intros x y z Hxy Hyz. unfold desc in *. by transitivity (key y). Qed.

Global Instance then_by_total {A} (R1 R2 : relation A)
  `{!RelDecision R1, !Total R1, !Total R2} : Total (then_by R1 R2).
Proof.
  intros x y. unfold then_by.
  destruct (decide (R1 x y)) as [Hxy | Hxy], (decide (R1 y x)) as [Hyx | Hyx].
  - destruct (total R2 x y); [left | right]; done.
  - left. done.
  - right. done.
  - destruct (total R1 x y); done.
Qed.

Global Instance then_by_trans {A} (R1 R2 : relation A)
  `{!Transitive R1, !Transitive R2} : Transitive (then_by R1 R2).
Proof.
  intros x y z [Hxy Hxy2] [Hyz Hyz2]. split; [by transitivity y |].
  intros Hzx. transitivity y.
  - apply Hxy2. by transitivity z.
  - apply Hyz2. by transitivity x.
Qed.

Lemma ORDER_BY_sorted {A} (R : relation A)
    `{!RelDecision R, !Total R, !Transitive R} (l : list A) :
  StronglySorted R (ORDER_BY R l).
Proof. by apply StronglySorted_merge_sort. Qed.

Lemma StronglySorted_weaken {A} (R R' : relation A) (P : A → Prop) l :
  (∀ x y, P x → P y → R x y → R' x y) →
  Forall P l → StronglySorted R l → StronglySorted R' l.
Proof.
  intros Himpl HP Hs. induction Hs as [|x l Hs IH Hx]; [constructor |].
  apply Forall_cons in HP as [Hpx HP]. constructor; [by apply IH |].
  rewrite Forall_forall in Hx, HP |- *. intros y Hy.
  apply Himpl; [done | by apply HP | by apply Hx].
Qed.

Lemma then_by_lexicographic {A K1 K2} (k1 : A → K1) (k2 : A → K2)
    (R1 : relation K1) (R2 : relation A) (R2' : relation K2)
    `{!EqDecision K1} x y :
  (R2 x y → R2' (k2 x) (k2 y)) →
  then_by (asc k1 R1) R2 x y →
  lexicographic R1 R2' (k1 x, k2 x) (k1 y, k2 y).
Proof.
  intros H2 [H1 Htie]. unfold lexicographic, strictly, asc in *. simpl.
  destruct (decide (k1 x = k1 y)) as [Heq | Hne]; [right | by left].
  split; [done |]. apply H2, Htie. by rewrite Heq in *.
Qed.

Lemma earners_total_is_Some having mc orgs r :
  having None ≠ Some true →
  r ∈ INNER_JOIN on_organization_id (earners having mc) orgs →
  is_Some (e_total_revenue_2021 r.1).
Proof.
  destruct r as [a b]. intros Hnull (Ha & _)%elem_of_INNER_JOIN.
  apply elem_of_earners in Ha as (_ & _ & Hh). simpl.
  destruct (e_total_revenue_2021 a); [by eexists | done].
Qed.

Lemma by_revenue_desc having mc orgs :
  having None ≠ Some true →
  StronglySorted
    (λ x y, ∃ vx vy, e_total_revenue_2021 x.1 = Some vx
                     ∧ e_total_revenue_2021 y.1 = Some vy ∧ vy ≤ vx)
    (ORDER_BY (desc (λ r, e_total_revenue_2021 r.1) (nulls_first Z.le))
       (INNER_JOIN on_organization_id (earners having mc) orgs)).
Proof.
  intros Hnull.
  eapply (StronglySorted_weaken _ _ (λ r, is_Some (e_total_revenue_2021 r.1)));
    [| | apply ORDER_BY_sorted; apply _].
  - intros x y [vx Hx] [vy Hy] Hdesc. exists vx, vy. unfold desc in Hdesc.
    rewrite Hx, Hy in Hdesc. done.
  - apply Forall_forall. intros r Hr%elem_of_ORDER_BY.
    by eapply earners_total_is_Some.
Qed.

(** C10.  The rows of each processed extract reach the CSV in the order of
    its ORDER BY: paying organizations and outliers by non-increasing
    [total_revenue_2021]; churn numbers by non-increasing [times_churned],
    ties by non-decreasing [times_reactivated]; the two group-by extracts
    ascending by (plan or type, month, quarter). *)
Theorem processed_extracts_sorted (db : database) :
  (df_rows (sql PayingOrganizations db)
     = paying_organizations_cells <$> paying_organizations db
   ∧ StronglySorted
       (λ x y, ∃ vx vy, e_total_revenue_2021 x.1 = Some vx
                        ∧ e_total_revenue_2021 y.1 = Some vy ∧ vy ≤ vx)
       (paying_organizations db))
  ∧ (df_rows (sql OutliersAndMode db)
       = outliers_and_mode_cells <$> outliers_and_mode db
     ∧ StronglySorted
         (λ x y, ∃ vx vy, e_total_revenue_2021 x.1 = Some vx
                          ∧ e_total_revenue_2021 y.1 = Some vy ∧ vy ≤ vx)
         (outliers_and_mode db))
  ∧ (df_rows (sql ChurnNumbers db) = churn_cells <$> churn_numbers db
     ∧ StronglySorted
         (λ x y, times_churned y < times_churned x
                 ∨ (times_churned x = times_churned y
                    ∧ times_reactivated x ≤ times_reactivated y))
         (churn_numbers db))
  ∧ (df_rows (sql GroupbyPlan db) = groupby_cells <$> groupby_plan db
     ∧ StronglySorted by_category_month_quarter (groupby_plan db))
  ∧ (df_rows (sql GroupbyType db) = groupby_cells <$> groupby_type db
     ∧ StronglySorted by_category_month_quarter (groupby_type db)).
Proof.
  assert (Hgroupby : ∀ cte,
            StronglySorted by_category_month_quarter (window_sums cte)).
  { intros cte.
    eapply (StronglySorted_weaken _ _ (λ _, True));
      [| by apply Forall_forall | apply ORDER_BY_sorted; apply _].
    intros x y _ _ Hxy. unfold by_category_month_quarter.
    apply (then_by_lexicographic category (λ r, (month r, quarter r))
             (nulls_first String.le)
             (then_by (asc month (nulls_first Z.le))
                      (asc quarter (nulls_first Z.le)))
             (lexicographic (nulls_first Z.le) (nulls_first Z.le)));
      [| exact Hxy].
    by apply (then_by_lexicographic month quarter (nulls_first Z.le)
                (asc quarter (nulls_first Z.le)) (nulls_first Z.le)). }
  split_and!; try done.
  - by apply by_revenue_desc.
  - by apply by_revenue_desc.
  - eapply (StronglySorted_weaken _ _ (λ _, True));
      [| by apply Forall_forall | apply ORDER_BY_sorted; apply _].
    intros x y _ _ [Hd Ha]. unfold desc, asc in *.
    destruct (decide (times_churned x = times_churned y)) as [Heq | Hne].
    + right. split; [done |]. apply Ha. lia.
    + left. lia.
  - apply Hgroupby.
  - apply Hgroupby.
Qed.

(** ** The routines *)

Lemma parent_joinpath (p : Path) (name : string) : parent (p / name)%path = p.
Proof.
  unfold parent, joinpath. rewrite length_app. simpl.
  replace (length p + 1 - 1)%nat with (length p) by lia.
  by rewrite take_app_length.
Qed.

(** Every routine is the same steps on its statement and directory: send
    the statement, then open the destination and write, then print. *)
Lemma routine_run render cwd client s target_file_name w :
  routine render cwd client s target_file_name w =
  match failure client s with
  | Some e => (inl e, logged [Query s] w)
  | None =>
      if decide (category_dir cwd s ∈ directories (fs w)
                 ∧ destination cwd s target_file_name ∉ directories (fs w))
      then (inr (), written render cwd client s target_file_name w)
      else (inl OSError,
            logged [Query s; WriteCsv (destination cwd s target_file_name)] w)
  end.
Proof.
  destruct s; simpl;
    unfold get_monthly_charges_2021, get_orgs_before_2022,
      get_paying_organizations, get_churn_numbers, get_outliers_and_mode,
      get_groupby_plan, get_groupby_type, query, to_csv, write_file, print,
      log, logged, destination, written, mbind, M_bind;
    simpl; destruct (failure client _); simpl; try done;
    rewrite parent_joinpath; case_decide; simpl;
    by rewrite <- (assoc_L (++)).
Qed.

(** C4 (as amended).  get_monthly_charges_2021 returns every row of
    [monthly_charges_2021] unmodified with every column of the table.
    get_orgs_before_2022 returns one row per row of
    [organizations_before_2022], unfiltered, with the nineteen columns its
    statement names and their cells unmodified; the table's [company_type]
    column is not part of it. *)
Theorem raw_extracts (db : database) :
  (df_columns (sql MonthlyCharges2021 db) = MonthlyCharges.columns
   ∧ df_rows (sql MonthlyCharges2021 db)
     = MonthlyCharges.cells <$> monthly_charges_2021 db
   ∧ dumps MonthlyCharges.columns MonthlyCharges.cells
       (monthly_charges_2021 db) (sql MonthlyCharges2021 db))
  ∧ (df_columns (sql OrgsBefore2022 db) = delete 17%nat Organizations.columns
     ∧ Organizations.columns !! 17%nat = Some "company_type"
     ∧ df_rows (sql OrgsBefore2022 db)
       = (λ b, delete 17%nat (Organizations.cells b))
           <$> organizations_before_2022 db
     ∧ "company_type" ∉ df_columns (sql OrgsBefore2022 db)).
Proof.
  split_and!; try done.
  - split; [done |]. intros r Hr. simpl. by apply list_elem_of_fmap_2.
  - compute_done.
Qed.

(** C4 as stated fails for get_orgs_before_2022: the table has a
    [company_type] column, the extract has none. *)
Lemma orgs_before_2022_is_no_full_dump :
  ¬ dumps Organizations.columns Organizations.cells
      (organizations_before_2022 sample_db) (sql OrgsBefore2022 sample_db).
Proof.
  intros [Hcolumns _].
  assert (Hin : "company_type" ∈ df_columns (sql OrgsBefore2022 sample_db)).
  { apply Hcolumns. compute_done. }
  revert Hin. compute_done.
Qed.



(** The scenario of C1 through the whole routine: the file, what is printed
    and what was asked of the outside. *)
Example get_paying_organizations_scenario :
  let run := get_paying_organizations show sample_cwd scenario_client
               "paying.csv" sample_world in
  run.1 = inr ()
  ∧ files (fs run.2) !! (PROCESSED_DIR sample_cwd / "paying.csv")%path
    = Some [select_list PayingOrganizations;
            ["1"; "1001"; "50"; "500"; "40"; "10"; "80"; "20"; "2"; "5"; "1";
             "EE"; ""; "agency"; "12"; ""]]
  ∧ stdout run.2
    = ["CSV file created. File name is paying.csv and location is "
       +:+ "/home/data/processed"]
  ∧ trace run.2
    = [Query PayingOrganizations;
       WriteCsv ["home"; "data"; "processed"; "paying.csv"]].
Proof. by vm_compute. Qed.

(** ** Import of the module *)

Section import.
Context {Credentials : Type} (cwd : Path).
Context (from_service_account_file : Path → exception + Credentials).
Context (bigquery_Client : Credentials → option string → exception + Client).

Lemma import_module_run environ w :
  import_module cwd from_service_account_file bigquery_Client environ w =
  match environ !! "SERVICE_ACCOUNT_FILE" with
  | None => (inl TypeError, w)
  | Some file =>
      match from_service_account_file (BASE_DIR cwd / file)%path with
      | inl e => (inl e, logged [LoadCredentials (BASE_DIR cwd / file)%path] w)
      | inr creds =>
          (bigquery_Client creds (environ !! "PROJECT_ID"),
           logged [LoadCredentials (BASE_DIR cwd / file)%path;
                   BuildClient (environ !! "PROJECT_ID")] w)
      end
  end.
Proof.
  unfold import_module, mbind, M_bind, log, logged.
  destruct (environ !! "SERVICE_ACCOUNT_FILE") as [file|]; simpl; [| done].
  destruct (from_service_account_file _) as [e|creds]; simpl; [done |].
  rewrite <- (assoc_L (++)). by destruct (bigquery_Client creds _).
Qed.

End import.

(** C9 (as amended).  The module body raises a [TypeError] when the
    credential file path is not in the environment, before anything is
    loaded.  With the path set, it loads the credentials once and, if that
    raises, stops with that exception; otherwise it builds the client once,
    handing over the project identifier of the environment, or none when
    that is not set, and ends as the constructor ends.  No step is tried a
    second time and no exception is replaced by another. *)
Theorem import_module_failures {Credentials : Type} (cwd : Path)
    (from_service_account_file : Path → exception + Credentials)
    (bigquery_Client : Credentials → option string → exception + Client)
    (environ : gmap string string) (w : World) :
  (environ !! "SERVICE_ACCOUNT_FILE" = None →
   import_module cwd from_service_account_file bigquery_Client environ w
   = (inl TypeError, w))
  ∧ (∀ file e,
       environ !! "SERVICE_ACCOUNT_FILE" = Some file →
       from_service_account_file (BASE_DIR cwd / file)%path = inl e →
       import_module cwd from_service_account_file bigquery_Client environ w
       = (inl e, logged [LoadCredentials (BASE_DIR cwd / file)%path] w))
  ∧ (∀ file creds,
       environ !! "SERVICE_ACCOUNT_FILE" = Some file →
       from_service_account_file (BASE_DIR cwd / file)%path = inr creds →
       import_module cwd from_service_account_file bigquery_Client environ w
       = (bigquery_Client creds (environ !! "PROJECT_ID"),
          logged [LoadCredentials (BASE_DIR cwd / file)%path;
                  BuildClient (environ !! "PROJECT_ID")] w)).
Proof.
  split_and!.
  - intros Hfile. by rewrite import_module_run, Hfile.
  - intros file e Hfile Hcreds. by rewrite import_module_run, Hfile, Hcreds.
  - intros file creds Hfile Hcreds.
    by rewrite import_module_run, Hfile, Hcreds.
Qed.

Lemma import_module_failures_witness :
  (({["PROJECT_ID" := "analytics"]} : gmap string string)
     !! "SERVICE_ACCOUNT_FILE" = None
   ∧ ({["SERVICE_ACCOUNT_FILE" := "key.json"]} : gmap string string)
       !! "SERVICE_ACCOUNT_FILE" = Some "key.json"
   ∧ missing_credentials (BASE_DIR sample_cwd / "key.json")%path
     = inl (Raised "FileNotFoundError")
   ∧ sample_credentials (BASE_DIR sample_cwd / "key.json")%path = inr ())
  ∧ import_module sample_cwd sample_credentials sample_Client
      {["PROJECT_ID" := "analytics"]} sample_world
    = (inl TypeError, sample_world)
  ∧ import_module sample_cwd missing_credentials sample_Client
      {["SERVICE_ACCOUNT_FILE" := "key.json"]} sample_world
    = (inl (Raised "FileNotFoundError"),
       logged [LoadCredentials (BASE_DIR sample_cwd / "key.json")%path]
         sample_world)
  ∧ import_module sample_cwd sample_credentials sample_Client
      {["SERVICE_ACCOUNT_FILE" := "key.json"]} sample_world
    = (inr sample_client,
       logged [LoadCredentials (BASE_DIR sample_cwd / "key.json")%path;
               BuildClient None] sample_world).
Proof.
  assert (H1 : ({["PROJECT_ID" := "analytics"]} : gmap string string)
                 !! "SERVICE_ACCOUNT_FILE" = None) by reflexivity.
  assert (H2 : ({["SERVICE_ACCOUNT_FILE" := "key.json"]} : gmap string string)
                 !! "SERVICE_ACCOUNT_FILE" = Some "key.json") by reflexivity.
  assert (H3 : missing_credentials (BASE_DIR sample_cwd / "key.json")%path
               = inl (Raised "FileNotFoundError")) by reflexivity.
  assert (H4 : sample_credentials (BASE_DIR sample_cwd / "key.json")%path
               = inr ()) by reflexivity.
  split; [done |]. split_and!.
  - exact (proj1 (import_module_failures sample_cwd sample_credentials
                    sample_Client {["PROJECT_ID" := "analytics"]}
                    sample_world) H1).
  - exact (proj1 (proj2 (import_module_failures sample_cwd
                           missing_credentials sample_Client
                           {["SERVICE_ACCOUNT_FILE" := "key.json"]}
                           sample_world)) "key.json" _ H2 H3).
  - exact (proj2 (proj2 (import_module_failures sample_cwd sample_credentials
                           sample_Client
                           {["SERVICE_ACCOUNT_FILE" := "key.json"]}
                           sample_world)) "key.json" () H2 H4).
Defined.

(** C9 as stated fails: with no credential file path in the environment
    the import raises a [TypeError], not a [ConfigurationError]. *)
Lemma import_without_credential_path_raises_TypeError :
  (∅ : gmap string string) !! "SERVICE_ACCOUNT_FILE" = None
  ∧ import_module sample_cwd sample_credentials sample_Client ∅ sample_world
    = (inl TypeError, sample_world)
  ∧ ¬ ∃ w',
        import_module sample_cwd sample_credentials sample_Client ∅
          sample_world
        = (inl (Raised "ConfigurationError"), w').
Proof.
  split_and!; [done | done |]. by intros [w' [=]].
Qed.





(** C8.  Calling a routine again with the same file name replaces the
    file: after the second call the files are those a single call against
    the data of the second call leaves, the destination holding the CSV of
    that data alone. *)
Theorem reinvocation_overwrites render cwd client1 client2 s
    target_file_name w w1 w2 :
  routine render cwd client1 s target_file_name w = (inr (), w1) →
  routine render cwd client2 s target_file_name w1 = (inr (), w2) →
  files (fs w2) !! destination cwd s target_file_name
    = Some (csv render (sql s (warehouse client2)))
  ∧ ∃ w2',
      routine render cwd client2 s target_file_name w = (inr (), w2')
      ∧ fs w2 = fs w2'.
Proof.
  rewrite !routine_run.
  destruct (failure client1 s); [done |].
  destruct (failure client2 s); [done |].
  destruct (decide (_ ∧ _)) as [Hok|]; [| done]. intros [= <-].
  rewrite decide_True by done. intros [= <-]. simpl.
  split; [by rewrite lookup_insert_eq |].
  eexists. split; [done |]. simpl. by rewrite insert_insert_eq.
Qed.

Lemma reinvocation_overwrites_witness :
  (routine show sample_cwd sample_client ChurnNumbers "churn.csv"
     sample_world
   = (inr (), written show sample_cwd sample_client ChurnNumbers
                "churn.csv" sample_world)
   ∧ routine show sample_cwd empty_client ChurnNumbers "churn.csv"
       (written show sample_cwd sample_client ChurnNumbers "churn.csv"
          sample_world)
     = (inr (), written show sample_cwd empty_client ChurnNumbers
                  "churn.csv"
                  (written show sample_cwd sample_client ChurnNumbers
                     "churn.csv" sample_world)))
  ∧ files (fs (written show sample_cwd empty_client ChurnNumbers "churn.csv"
                 (written show sample_cwd sample_client ChurnNumbers
                    "churn.csv" sample_world)))
      !! destination sample_cwd ChurnNumbers "churn.csv"
    = Some [select_list ChurnNumbers].
Proof.
  assert (H1 : routine show sample_cwd sample_client ChurnNumbers "churn.csv"
                 sample_world
               = (inr (), written show sample_cwd sample_client ChurnNumbers
                            "churn.csv" sample_world)).
  { rewrite routine_run. simpl. by rewrite decide_True by (by vm_compute). }
  assert (H2 : routine show sample_cwd empty_client ChurnNumbers "churn.csv"
                 (written show sample_cwd sample_client ChurnNumbers
                    "churn.csv" sample_world)
               = (inr (), written show sample_cwd empty_client ChurnNumbers
                            "churn.csv"
                            (written show sample_cwd sample_client
                               ChurnNumbers "churn.csv" sample_world))).
  { rewrite routine_run. simpl. by rewrite decide_True by (by vm_compute). }
  split; [done |].
  exact (proj1 (reinvocation_overwrites show sample_cwd sample_client
                  empty_client ChurnNumbers "churn.csv" _ _ _ H1 H2)).
Defined.

(** * Further properties *)

(** ** get_churn_numbers *)

Lemma holds_sql_eq {A} `{EqDecision A} (a : option A) (x : A) :
  holds (sql_eq a (Some x)) ↔ a = Some x.
Proof.
  unfold holds, sql_eq. destruct a as [y|]; [| done]. split.
  - intros [= Heq]. by apply bool_decide_eq_true in Heq as ->.
  - intros [= ->]. by rewrite bool_decide_eq_true_2.
Qed.

Lemma CASE_WHEN_type c t :
  is_Some (CASE_WHEN (sql_eq (MonthlyCharges.type c) (Some t))
             (Some 1) (@None Z))
  ↔ MonthlyCharges.type c = Some t.
Proof.
  unfold CASE_WHEN. rewrite <- holds_sql_eq.
  destruct (decide (holds _)) as [Hh | Hh].
  - split; [done | by eexists].
  - split; [by intros [? ?] | done].
Qed.

Lemma COUNT_type_count t g : COUNT_type t g = count_of_type t g.
Proof.
  unfold COUNT_type, COUNT, count_of_type. f_equal.
  induction g as [|c g IH]; [done |].
  rewrite fmap_cons, !filter_cons.
  destruct (decide (is_Some _)) as [Hs | Hs],
    (decide (MonthlyCharges.type c = Some t)) as [Ht | Ht];
    simpl; rewrite ?IH; try done; exfalso.
  - by apply Ht, CASE_WHEN_type.
  - by apply Hs, CASE_WHEN_type.
Qed.

Lemma elem_of_churn_numbers db r :
  r ∈ churn_numbers db ↔
  (∃ c, c ∈ monthly_charges_2021 db
        ∧ MonthlyCharges.organization_id c = ch_organization_id r)
  ∧ let g := charges_of (monthly_charges_2021 db) (ch_organization_id r) in
    times_churned r = count_of_type "Churned" g
    ∧ times_reactivated r = count_of_type "Reactivated" g
    ∧ times_retained r = count_of_type "Retained" g
    ∧ revenue r = SUM (MonthlyCharges.amount_usd <$> g).
Proof.
  unfold churn_numbers. rewrite elem_of_ORDER_BY, list_elem_of_fmap. split.
  - intros ([k rows] & -> & [Hk Hrows]%elem_of_GROUP_BY). simpl in *.
    subst rows. by rewrite !COUNT_type_count.
  - intros [Hk (H1 & H2 & H3 & H4)].
    exists (ch_organization_id r,
            charges_of (monthly_charges_2021 db) (ch_organization_id r)).
    split; [| by apply elem_of_GROUP_BY].
    destruct r; simpl in *. by rewrite !COUNT_type_count, H1, H2, H3, H4.
Qed.

Lemma churn_numbers_keys db :
  ch_organization_id <$> churn_numbers db
  ≡ₚ remove_dups (MonthlyCharges.organization_id <$> monthly_charges_2021 db).
Proof.
  unfold churn_numbers, ORDER_BY. rewrite merge_sort_Permutation.
  unfold GROUP_BY. by rewrite <- !list_fmap_compose, list_fmap_id.
Qed.

(** X1.  get_churn_numbers: every output row belongs to an organization id
    that has charges, and its three counters are the numbers of that
    organization's charges of type 'Churned', 'Reactivated' and 'Retained',
    its revenue the sum of their amounts.  Charges without an organization
    id form one group of their own. *)
Theorem churn_numbers_counts (db : database) (r : churn_row) :
  r ∈ churn_numbers db →
  let g := charges_of (monthly_charges_2021 db) (ch_organization_id r) in
  g ≠ []
  ∧ times_churned r = count_of_type "Churned" g
  ∧ times_reactivated r = count_of_type "Reactivated" g
  ∧ times_retained r = count_of_type "Retained" g
  ∧ revenue r = SUM (MonthlyCharges.amount_usd <$> g).
Proof.
  intros [(c & Hc & Hid) Hrow]%elem_of_churn_numbers. split; [| done].
  intros Hnil. assert (Hin : c ∈ charges_of (monthly_charges_2021 db)
                                   (ch_organization_id r))
    by (by apply list_elem_of_filter).
  rewrite Hnil in Hin. by apply elem_of_nil in Hin.
Qed.

(** X2.  get_churn_numbers returns exactly one row per distinct
    organization id of the charges table: no id is repeated, none is left
    out, none is invented. *)
Theorem churn_numbers_one_row_per_organization (db : database) :
  NoDup (ch_organization_id <$> churn_numbers db)
  ∧ ∀ id, id ∈ ch_organization_id <$> churn_numbers db
          ↔ id ∈ MonthlyCharges.organization_id <$> monthly_charges_2021 db.
Proof.
  split.
  - rewrite churn_numbers_keys. apply NoDup_remove_dups.
  - intros id. rewrite churn_numbers_keys. apply elem_of_remove_dups.
Qed.

Lemma count_of_type_nonneg t g : 0 ≤ count_of_type t g.
Proof. unfold count_of_type. lia. Qed.

Lemma counts_of_types_le g :
  count_of_type "Churned" g + count_of_type "Reactivated" g
  + count_of_type "Retained" g ≤ Z.of_nat (length g)
  ∧ (Forall known_type g →
     count_of_type "Churned" g + count_of_type "Reactivated" g
     + count_of_type "Retained" g = Z.of_nat (length g)).
Proof.
  unfold count_of_type. induction g as [|c g [IHle IHeq]]; [done |].
  rewrite !filter_cons.
  destruct (decide (MonthlyCharges.type c = Some "Churned")) as [H1 | H1],
    (decide (MonthlyCharges.type c = Some "Reactivated")) as [H2 | H2],
    (decide (MonthlyCharges.type c = Some "Retained")) as [H3 | H3];
    try congruence; simpl length; (split; [lia |]);
    intros [Hk Hg]%Forall_cons; specialize (IHeq Hg); try lia.
  exfalso. unfold known_type in Hk. intuition.
Qed.

(** X3.  get_churn_numbers: the three counters of a row are not negative
    and together count no more charges than the organization has; they
    count all of them when each charge is of one of the three types. *)
Theorem churn_numbers_counters_bounded (db : database) (r : churn_row) :
  r ∈ churn_numbers db →
  let g := charges_of (monthly_charges_2021 db) (ch_organization_id r) in
  0 ≤ times_churned r ∧ 0 ≤ times_reactivated r ∧ 0 ≤ times_retained r
  ∧ times_churned r + times_reactivated r + times_retained r
    ≤ Z.of_nat (length g)
  ∧ (Forall known_type g →
     times_churned r + times_reactivated r + times_retained r
     = Z.of_nat (length g)).
Proof.
  intros [_ (-> & -> & -> & _)]%elem_of_churn_numbers g.
  pose proof (counts_of_types_le g) as [Hle Heq].
  split_and!; try apply count_of_type_nonneg; done.
Qed.

(** ** The two joins *)

Lemma elem_of_joined having mc orgs a b :
  (a, b) ∈ ORDER_BY (desc (λ r, e_total_revenue_2021 r.1) (nulls_first Z.le))
             (INNER_JOIN on_organization_id (earners having mc) orgs)
  ↔ a ∈ earners having mc ∧ b ∈ orgs
    ∧ ∃ id, e_organization_id a = Some id
            ∧ Organizations.organization_id b = Some id.
Proof.
  rewrite elem_of_ORDER_BY, elem_of_INNER_JOIN.
  unfold on_organization_id, holds, sql_eq.
  destruct (e_organization_id a) as [x|],
    (Organizations.organization_id b) as [y|]; split;
    try (by intros (? & ? & ?)); try (by intros (? & ? & ? & ? & ?)).
  - intros (Ha & Hb & [= ->%bool_decide_eq_true]). eauto.
  - intros (Ha & Hb & id & [= ->] & [= ->]).
    by rewrite bool_decide_eq_true_2.
Qed.


(** X5.  In both joined extracts every row pairs a revenue group with a
    row of [organizations_before_2022] that has the same organization id,
    and that id is not NULL: charges without an organization id and
    organizations without one never reach these extracts. *)
Theorem joined_rows_match (db : database) (r : earner * Organizations.row) :
  r ∈ paying_organizations db ∨ r ∈ outliers_and_mode db →
  r.2 ∈ organizations_before_2022 db
  ∧ ∃ id, e_organization_id r.1 = Some id
          ∧ Organizations.organization_id r.2 = Some id.
Proof.
  destruct r as [a b].
  unfold outliers_and_mode, paying_organizations, outlier_earners,
    nonzero_earners.
  rewrite !elem_of_joined. simpl. intros [(_ & ? & ?) | (_ & ? & ?)]; done.
Qed.

(** X6.  The revenue that get_paying_organizations reports for an
    organization is the revenue that get_churn_numbers reports for it. *)
Theorem paying_revenue_is_churn_revenue (db : database)
    (r : earner * Organizations.row) :
  r ∈ paying_organizations db →
  ∃ c, c ∈ churn_numbers db
       ∧ ch_organization_id c = e_organization_id r.1
       ∧ revenue c = e_total_revenue_2021 r.1.
Proof.
  destruct r as [a b]. unfold paying_organizations, nonzero_earners.
  rewrite elem_of_joined. intros (Ha & _ & _).
  apply elem_of_earners in Ha as (Hc & Htot & _). simpl.
  set (g := charges_of (monthly_charges_2021 db) (e_organization_id a)).
  exists {| ch_organization_id := e_organization_id a;
            times_churned := count_of_type "Churned" g;
            times_reactivated := count_of_type "Reactivated" g;
            times_retained := count_of_type "Retained" g;
            revenue := SUM (MonthlyCharges.amount_usd <$> g) |}.
  split_and!; [| done | by rewrite Htot].
  by apply elem_of_churn_numbers.
Qed.

Lemma earners_NoDup having mc :
  NoDup (e_organization_id <$> earners having mc).
Proof.
  unfold earners. eapply sublist_NoDup; [| apply fmap_sublist, sublist_filter].
  unfold GROUP_BY. rewrite <- !list_fmap_compose, list_fmap_id.
  apply NoDup_remove_dups.
Qed.

Lemma elem_of_earners_id having mc id :
  having None ≠ Some true →
  Some id ∈ e_organization_id <$> earners having mc
  ↔ holds (having (org_total mc id)).
Proof.
  intros Hnull. rewrite list_elem_of_fmap. split.
  - intros (a & Hid & (_ & Htot & Hh)%elem_of_earners).
    rewrite <- Hid in Htot. fold (org_total mc id) in Htot.
    by rewrite <- Htot.
  - intros Hh.
    exists {| e_organization_id := Some id;
              e_total_revenue_2021 := org_total mc id |}.
    split; [done |]. apply elem_of_earners. split_and!; [| done | done].
    simpl.
    destruct (decide (Exists (λ c, MonthlyCharges.organization_id c
                                   = Some id) mc)) as [He | Hne].
    + apply Exists_exists in He as (c & ? & ?). by exists c.
    + exfalso. rewrite org_total_no_rows in Hh; [done |].
      intros c Hc Heq. apply Hne, Exists_exists. by exists c.
Qed.

Lemma holds_sql_eq_l {A} `{EqDecision A} (x : A) (b : option A) :
  holds (sql_eq (Some x) b) ↔ b = Some x.
Proof.
  unfold holds, sql_eq. destruct b as [y|]; [| done]. split.
  - intros [= Heq]. by apply bool_decide_eq_true in Heq as ->.
  - intros [= ->]. by rewrite bool_decide_eq_true_2.
Qed.

Lemma joined_count_aux (es : list earner) (orgs : list Organizations.row) id :
  NoDup (e_organization_id <$> es) →
  length (filter (λ r : earner * Organizations.row,
                    e_organization_id r.1 = Some id)
            (INNER_JOIN on_organization_id es orgs))
  = if decide (Some id ∈ e_organization_id <$> es)
    then length (filter (λ b, Organizations.organization_id b = Some id) orgs)
    else 0%nat.
Proof.
  unfold INNER_JOIN. induction es as [|a es IH]; intros Hnd.
  - by rewrite decide_False by apply not_elem_of_nil.
  - rewrite fmap_cons in Hnd. apply NoDup_cons in Hnd as [Hnin Hnd].
    rewrite bind_cons, filter_app, length_app, IH by done.
    rewrite fmap_cons.
    destruct (decide (e_organization_id a = Some id)) as [Ha | Ha].
    + rewrite Ha in Hnin. rewrite (decide_False (P := _ ∈ _ <$> es)) by done.
      rewrite decide_True by (rewrite Ha; left).
      rewrite filter_all, length_fmap.
      * rewrite Nat.add_0_r. f_equal. apply list_filter_iff. intros b.
        unfold on_organization_id. rewrite Ha. apply holds_sql_eq_l.
      * by intros [a' b] (b' & [= -> ->] & _)%list_elem_of_fmap.
    + rewrite filter_none.
      * simpl. apply decide_ext. rewrite elem_of_cons. intuition congruence.
      * by intros [a' b] (b' & [= -> ->] & _)%list_elem_of_fmap.
Qed.

Lemma joined_count having mc orgs id :
  having None ≠ Some true →
  holds (having (org_total mc id)) →
  length (filter (λ r : earner * Organizations.row,
                    e_organization_id r.1 = Some id)
            (ORDER_BY (desc (λ r, e_total_revenue_2021 r.1)
                         (nulls_first Z.le))
               (INNER_JOIN on_organization_id (earners having mc) orgs)))
  = length (filter (λ b, Organizations.organization_id b = Some id) orgs).
Proof.
  intros Hnull Hh. unfold ORDER_BY. rewrite merge_sort_Permutation.
  rewrite joined_count_aux by apply earners_NoDup.
  by rewrite decide_True by (by apply elem_of_earners_id).
Qed.

(** X7.  A qualifying organization has as many rows in a joined extract as
    [organizations_before_2022] has rows with its id: one row when the id
    is unique there, several when it is repeated. *)
Theorem joined_rows_per_organization (db : database) (id : Z) :
  ((∃ v, org_total (monthly_charges_2021 db) id = Some v ∧ 0 < v) →
   length (filter (λ r, e_organization_id r.1 = Some id)
             (paying_organizations db))
   = length (filter (λ b, Organizations.organization_id b = Some id)
               (organizations_before_2022 db)))
  ∧ ((∃ v, org_total (monthly_charges_2021 db) id = Some v
           ∧ (22000 < v ∨ 90 ≤ v ≤ 250)) →
     length (filter (λ r, e_organization_id r.1 = Some id)
               (outliers_and_mode db))
     = length (filter (λ b, Organizations.organization_id b = Some id)
                 (organizations_before_2022 db))).
Proof.
  split; intros (v & Hv & Hq).
  - apply joined_count; [done |]. apply holds_sql_gt. eauto.
  - apply joined_count; [done |].
    apply holds_sql_or. rewrite holds_sql_gt, holds_sql_between.
    destruct Hq; eauto.
Qed.

(** ** get_groupby_plan and get_groupby_type *)

Section groupedby.
Context (grouping : MonthlyCharges.row → option string).
Context (mc : list MonthlyCharges.row).

Lemma elem_of_groupedby g :
  g ∈ groupedby grouping mc ↔
  ∃ c, c ∈ mc
       ∧ grouped_key g = charge_key grouping c
       ∧ let rows := filter (λ x, charge_key grouping x = grouped_key g) mc in
         num_charges g = COUNT_star rows
         ∧ num_sales_driven g
           = SUM ((λ a, CASE_WHEN
                          (sql_eq (MonthlyCharges.is_sales_driven a)
                                  (Some true))
                          (Some 1) (Some 0)) <$> rows)
         ∧ g_revenue g = SUM (MonthlyCharges.amount_usd <$> rows).
Proof.
  unfold groupedby. rewrite elem_of_ORDER_BY, list_elem_of_fmap. split.
  - intros ([[[cat q] m] rows] & -> & [(c & Hc & Hk) Hrows]%elem_of_GROUP_BY).
    simpl in *. subst rows. exists c.
    split_and!; [done | symmetry; exact Hk | reflexivity..].
  - intros (c & Hc & Hk & Hn & Hs & Hr).
    exists (grouped_key g,
            filter (λ x, charge_key grouping x = grouped_key g) mc).
    split.
    + destruct g. simpl in *. by rewrite Hn, Hs, Hr.
    + apply elem_of_GROUP_BY. split; [| done]. exists c. by rewrite Hk.
Qed.

Lemma groupedby_keys :
  grouped_key <$> groupedby grouping mc
  ≡ₚ remove_dups (charge_key grouping <$> mc).
Proof.
  unfold groupedby, ORDER_BY. rewrite merge_sort_Permutation.
  unfold GROUP_BY. rewrite <- !list_fmap_compose.
  unfold charge_key, quarter_of, month_of.
  match goal with
  | |- ?f <$> ?l ≡ₚ _ =>
      assert (Hid : ∀ ks : list (option string * option Z * option Z),
                f <$> ks = ks)
  end.
  { intros ks. induction ks as [|[[cat q] m] ks IH]; [done |].
    rewrite fmap_cons. by f_equal. }
  by rewrite Hid.
Qed.

Lemma groupedby_quarter g :
  g ∈ groupedby grouping mc → g_quarter g = quarter_of_month (g_month g).
Proof.
  intros (c & _ & [= _ -> ->] & _)%elem_of_groupedby.
  unfold quarter_of, month_of, EXTRACT_QUARTER, EXTRACT_MONTH.
  by destruct (MonthlyCharges.charged_on c).
Qed.

(** Summing a measure of the groups over the groups picked by [P] is
    summing it over the charges picked by [P]. *)
Lemma groupedby_SUM (P : option string * option Z * option Z → Prop)
    `{!∀ k, Decision (P k)}
    (gv : grouped → option Z) (v : MonthlyCharges.row → option Z) :
  (∀ g, g ∈ groupedby grouping mc →
        gv g = SUM (v <$> filter (λ c, charge_key grouping c = grouped_key g)
                            mc)) →
  SUM (gv <$> filter (λ g, P (grouped_key g)) (groupedby grouping mc))
  = SUM (v <$> filter (λ c, P (charge_key grouping c)) mc).
Proof.
  intros Hgv.
  rewrite <- (SUM_partition (charge_key grouping) v
                (filter (λ c, P (charge_key grouping c)) mc)
                (grouped_key
                   <$> filter (λ g, P (grouped_key g))
                         (groupedby grouping mc))).
  - rewrite <- list_fmap_compose. f_equal. apply list_fmap_ext.
    intros _ g [HP Hg]%list_elem_of_lookup_2%list_elem_of_filter. simpl.
    rewrite Hgv by done. f_equal. f_equal.
    rewrite list_filter_filter. apply list_filter_iff.
    intros c. split; [| by intros [? _]]. intros Hk. by rewrite Hk.
  - eapply sublist_NoDup; [| apply fmap_sublist, sublist_filter].
    rewrite groupedby_keys. apply NoDup_remove_dups.
  - intros c [HP Hc]%list_elem_of_filter.
    assert (Hin : charge_key grouping c
                  ∈ grouped_key <$> groupedby grouping mc).
    { rewrite groupedby_keys. apply elem_of_remove_dups.
      by apply list_elem_of_fmap_2. }
    apply list_elem_of_fmap in Hin as (g & Hk & Hg).
    apply list_elem_of_fmap. exists g. split; [done |].
    apply list_elem_of_filter. by rewrite <- Hk.
Qed.
End groupedby.

Lemma SUM_all_Some {A} (f : A → Z) (l : list A) :
  l ≠ [] → SUM ((λ a, Some (f a)) <$> l) = Some (sumZ (f <$> l)).
Proof.
  intros Hl.
  destruct (SUM_cases ((λ a, Some (f a)) <$> l)) as [[_ Hn] | [-> _]].
  - destruct l as [|x l]; [done |]. by apply Forall_cons in Hn as [? _].
  - f_equal. rewrite sum_or_zero_sumZ, <- list_fmap_compose.
    f_equal.
Qed.

Lemma sumZ_indicator {A} (P : A → Prop) `{!∀ x, Decision (P x)} (l : list A) :
  sumZ ((λ a, if decide (P a) then 1 else 0) <$> l)
  = Z.of_nat (length (filter P l)).
Proof.
  unfold sumZ. induction l as [|x l IH]; [done |].
  rewrite fmap_cons, filter_cons. simpl foldr. rewrite IH.
  destruct (decide (P x)); simpl length; lia.
Qed.

Lemma SUM_ones {A} (l : list A) :
  l ≠ [] → SUM ((λ _, Some 1) <$> l) = Some (Z.of_nat (length l)).
Proof.
  intros Hl. rewrite (SUM_all_Some (λ _, 1)) by done. f_equal.
  rewrite <- (filter_all (λ _, True) l) at 2 by done.
  rewrite <- sumZ_indicator. done.
Qed.

Lemma SUM_sales_driven (l : list MonthlyCharges.row) :
  l ≠ [] →
  SUM ((λ a, CASE_WHEN (sql_eq (MonthlyCharges.is_sales_driven a) (Some true))
               (Some 1) (Some 0)) <$> l)
  = number_of (filter sales_driven l).
Proof.
  intros Hl. unfold number_of. rewrite <- sumZ_indicator.
  rewrite <- SUM_all_Some by done. f_equal. apply list_fmap_ext.
  intros _ a _. unfold CASE_WHEN, sales_driven.
  rewrite (decide_ext _ _ _ _ (holds_sql_eq _ _)).
  by destruct (decide (MonthlyCharges.is_sales_driven a = Some true)).
Qed.

Lemma groupedby_SUM_iff grouping mc
    (P : option string * option Z * option Z → Prop) `{!∀ k, Decision (P k)}
    (Q : grouped → Prop) `{!∀ g, Decision (Q g)}
    (R : MonthlyCharges.row → Prop) `{!∀ c, Decision (R c)}
    (gv : grouped → option Z) (v : MonthlyCharges.row → option Z) :
  (∀ g, g ∈ groupedby grouping mc →
        gv g = SUM (v <$> filter (λ c, charge_key grouping c = grouped_key g)
                            mc)) →
  (∀ g, Q g ↔ P (grouped_key g)) →
  (∀ c, R c ↔ P (charge_key grouping c)) →
  SUM (gv <$> filter Q (groupedby grouping mc)) = SUM (v <$> filter R mc).
Proof.
  intros Hgv HQ HR.
  rewrite (list_filter_iff Q (λ g, P (grouped_key g))) by done.
  rewrite (list_filter_iff R (λ c, P (charge_key grouping c))) by done.
  by apply groupedby_SUM.
Qed.

Section windows.
Context (grouping : MonthlyCharges.row → option string).
Context (mc : list MonthlyCharges.row).
Context (gv : grouped → option Z) (v : MonthlyCharges.row → option Z).
Context (Hgv : ∀ g, g ∈ groupedby grouping mc →
           gv g = SUM (v <$> filter (λ c, charge_key grouping c
                                          = grouped_key g) mc)).

Let cte := groupedby grouping mc.

Lemma window_measures g :
  g ∈ cte →
  let r := windows cte g in
  SUM_OVER gv by_category_month cte g
    = SUM (v <$> filter (in_month grouping r) mc)
  ∧ SUM_OVER gv by_category_quarter cte g
    = SUM (v <$> filter (in_quarter grouping r) mc)
  ∧ SUM_OVER gv g_category cte g
    = SUM (v <$> filter (in_category grouping r) mc)
  ∧ SUM_OVER gv over_all cte g = SUM (v <$> mc).
Proof.
  intros Hg r. unfold SUM_OVER. split_and!.
  - apply (groupedby_SUM_iff grouping mc
             (λ k, (k.1.1, k.2) = (g_category g, g_month g)) _ _ gv v Hgv);
      [done |].
    intros c. unfold in_month. simpl.
    split; [by intros [-> ->] | by intros [= -> ->]].
  - apply (groupedby_SUM_iff grouping mc
             (λ k, (k.1.1, k.1.2) = (g_category g, g_quarter g)) _ _
             gv v Hgv); [done |].
    intros c. unfold in_quarter. simpl.
    split; [by intros [-> ->] | by intros [= -> ->]].
  - by apply (groupedby_SUM_iff grouping mc (λ k, k.1.1 = g_category g) _ _
                gv v Hgv).
  - transitivity (SUM (v <$> filter (λ _, True) mc));
      [| by rewrite filter_all].
    by apply (groupedby_SUM_iff grouping mc (λ k, True) _ _ gv v Hgv).
Qed.
End windows.

Section groupby_meaning.
Context (grouping : MonthlyCharges.row → option string).
Context (mc : list MonthlyCharges.row).

Lemma groupedby_rows_inhabited g :
  g ∈ groupedby grouping mc →
  filter (λ c, charge_key grouping c = grouped_key g) mc ≠ [].
Proof.
  intros (c & Hc & Hk & _)%elem_of_groupedby Hnil.
  by apply (filter_nil_not_elem_of _ _ c Hnil).
Qed.

Lemma window_slices_inhabited g :
  g ∈ groupedby grouping mc →
  let r := windows (groupedby grouping mc) g in
  filter (in_month grouping r) mc ≠ []
  ∧ filter (in_quarter grouping r) mc ≠ []
  ∧ filter (in_category grouping r) mc ≠ []
  ∧ mc ≠ [].
Proof.
  intros (c & Hc & [= Hcat Hq Hm] & _)%elem_of_groupedby r.
  assert (Hne : ∀ (P : MonthlyCharges.row → Prop) `{!∀ x, Decision (P x)},
            P c → filter P mc ≠ []).
  { intros P ? HP Hnil. eapply filter_nil_not_elem_of; eauto. }
  split_and!; try (apply Hne; unfold in_month, in_quarter, in_category;
                   simpl; by rewrite ?Hcat, ?Hq, ?Hm).
  intros ->. by apply elem_of_nil in Hc.
Qed.

Lemma groupby_counts r :
  r ∈ window_sums (groupedby grouping mc) →
  monthly_count r = number_of (filter (in_month grouping r) mc)
  ∧ qtr_count r = number_of (filter (in_quarter grouping r) mc)
  ∧ count_by_category r = number_of (filter (in_category grouping r) mc)
  ∧ total_count r = number_of mc.
Proof.
  intros (g & Hg & ->)%elem_of_window_sums.
  destruct (window_measures grouping mc (λ x, Some (num_charges x))
              (λ _, Some 1)) with (g := g) as (Hm & Hq & Hc & Ht); [| done |].
  { intros g' Hg'. rewrite SUM_ones by by apply groupedby_rows_inhabited.
    by apply elem_of_groupedby in Hg' as (_ & _ & _ & -> & _). }
  destruct (window_slices_inhabited g Hg) as (Im & Iq & Ic & It).
  simpl in *. unfold number_of.
  rewrite Hm, Hq, Hc, Ht, !SUM_ones by done. done.
Qed.

Lemma groupby_sales_driven r :
  r ∈ window_sums (groupedby grouping mc) →
  monthly_sales_driven r
    = number_of (filter sales_driven (filter (in_month grouping r) mc))
  ∧ qtr_sales_driven r
    = number_of (filter sales_driven (filter (in_quarter grouping r) mc))
  ∧ sales_driven_by_category r
    = number_of (filter sales_driven (filter (in_category grouping r) mc))
  ∧ total_sales_driven r = number_of (filter sales_driven mc).
Proof.
  intros (g & Hg & ->)%elem_of_window_sums.
  destruct (window_measures grouping mc num_sales_driven
              (λ a, CASE_WHEN
                      (sql_eq (MonthlyCharges.is_sales_driven a) (Some true))
                      (Some 1) (Some 0)))
    with (g := g) as (Hm & Hq & Hc & Ht); [| done |].
  { intros g' Hg'.
    by apply elem_of_groupedby in Hg' as (_ & _ & _ & _ & -> & _). }
  destruct (window_slices_inhabited g Hg) as (Im & Iq & Ic & It).
  simpl in *. rewrite Hm, Hq, Hc, Ht, !SUM_sales_driven by done. done.
Qed.

Lemma groupby_revenue r :
  r ∈ window_sums (groupedby grouping mc) →
  monthly_revenue r
    = SUM (MonthlyCharges.amount_usd <$> filter (in_month grouping r) mc)
  ∧ qtr_revenue r
    = SUM (MonthlyCharges.amount_usd <$> filter (in_quarter grouping r) mc)
  ∧ revenue_by_category r
    = SUM (MonthlyCharges.amount_usd <$> filter (in_category grouping r) mc)
  ∧ total_revenue r = SUM (MonthlyCharges.amount_usd <$> mc).
Proof.
  intros (g & Hg & ->)%elem_of_window_sums.
  destruct (window_measures grouping mc g_revenue MonthlyCharges.amount_usd)
    with (g := g) as (Hm & Hq & Hc & Ht); [| done |].
  { intros g' Hg'.
    by apply elem_of_groupedby in Hg' as (_ & _ & _ & _ & _ & ->). }
  simpl in *. by rewrite Hm, Hq, Hc, Ht.
Qed.
End groupby_meaning.

(** X8.  get_groupby_plan and get_groupby_type: the four count columns of
    a row are the numbers of charges of the row's plan (type) in its month,
    in its quarter and in all months, and the number of all charges. *)
Theorem groupby_counts_are_charges (db : database) :
  (∀ r, r ∈ groupby_plan db →
     let mc := monthly_charges_2021 db in
     monthly_count r = number_of (filter (in_month MonthlyCharges.plan r) mc)
     ∧ qtr_count r = number_of (filter (in_quarter MonthlyCharges.plan r) mc)
     ∧ count_by_plan r
       = number_of (filter (in_category MonthlyCharges.plan r) mc)
     ∧ total_count r = number_of mc)
  ∧ (∀ r, r ∈ groupby_type db →
     let mc := monthly_charges_2021 db in
     monthly_count r = number_of (filter (in_month MonthlyCharges.type r) mc)
     ∧ qtr_count r = number_of (filter (in_quarter MonthlyCharges.type r) mc)
     ∧ count_by_type r
       = number_of (filter (in_category MonthlyCharges.type r) mc)
     ∧ total_count r = number_of mc).
Proof. split; intros r Hr; by apply groupby_counts. Qed.

(** X9.  get_groupby_plan and get_groupby_type: the four sales-driven
    columns of a row are the numbers of charges with [is_sales_driven]
    TRUE among those of the row's plan (type) in its month, in its quarter
    and in all months, and among all charges; a charge whose flag is FALSE
    or NULL is not counted. *)
Theorem groupby_sales_driven_are_flagged_charges (db : database) :
  (∀ r, r ∈ groupby_plan db →
     let mc := monthly_charges_2021 db in
     monthly_sales_driven r
       = number_of (filter sales_driven
                      (filter (in_month MonthlyCharges.plan r) mc))
     ∧ qtr_sales_driven r
       = number_of (filter sales_driven
                      (filter (in_quarter MonthlyCharges.plan r) mc))
     ∧ sales_driven_by_plan r
       = number_of (filter sales_driven
                      (filter (in_category MonthlyCharges.plan r) mc))
     ∧ total_sales_driven r = number_of (filter sales_driven mc))
  ∧ (∀ r, r ∈ groupby_type db →
     let mc := monthly_charges_2021 db in
     monthly_sales_driven r
       = number_of (filter sales_driven
                      (filter (in_month MonthlyCharges.type r) mc))
     ∧ qtr_sales_driven r
       = number_of (filter sales_driven
                      (filter (in_quarter MonthlyCharges.type r) mc))
     ∧ sales_driven_by_type r
       = number_of (filter sales_driven
                      (filter (in_category MonthlyCharges.type r) mc))
     ∧ total_sales_driven r = number_of (filter sales_driven mc)).
Proof. split; intros r Hr; by apply groupby_sales_driven. Qed.

(** X10.  get_groupby_plan and get_groupby_type: the four revenue columns
    of a row are the sums of [amount_usd] over the charges of the row's
    plan (type) in its month, in its quarter and in all months, and over
    all charges. *)
Theorem groupby_revenue_is_charged_amount (db : database) :
  (∀ r, r ∈ groupby_plan db →
     let mc := monthly_charges_2021 db in
     monthly_revenue r
       = SUM (MonthlyCharges.amount_usd
                <$> filter (in_month MonthlyCharges.plan r) mc)
     ∧ qtr_revenue r
       = SUM (MonthlyCharges.amount_usd
                <$> filter (in_quarter MonthlyCharges.plan r) mc)
     ∧ revenue_by_plan r
       = SUM (MonthlyCharges.amount_usd
                <$> filter (in_category MonthlyCharges.plan r) mc)
     ∧ total_revenue r = SUM (MonthlyCharges.amount_usd <$> mc))
  ∧ (∀ r, r ∈ groupby_type db →
     let mc := monthly_charges_2021 db in
     monthly_revenue r
       = SUM (MonthlyCharges.amount_usd
                <$> filter (in_month MonthlyCharges.type r) mc)
     ∧ qtr_revenue r
       = SUM (MonthlyCharges.amount_usd
                <$> filter (in_quarter MonthlyCharges.type r) mc)
     ∧ revenue_by_type r
       = SUM (MonthlyCharges.amount_usd
                <$> filter (in_category MonthlyCharges.type r) mc)
     ∧ total_revenue r = SUM (MonthlyCharges.amount_usd <$> mc)).
Proof. split; intros r Hr; by apply groupby_revenue. Qed.

Section groupby_rows.
Context (grouping : MonthlyCharges.row → option string).
Context (mc : list MonthlyCharges.row).

Lemma elem_of_groupby_rows r :
  r ∈ window_sums (groupedby grouping mc) →
  ∃ c, c ∈ mc
       ∧ category r = grouping c
       ∧ quarter r = quarter_of c
       ∧ month r = month_of c.
Proof.
  intros (g & Hg & ->)%elem_of_window_sums.
  apply elem_of_groupedby in Hg as (c & Hc & [= Hcat Hq Hm] & _).
  by exists c.
Qed.

Lemma groupby_row_of_charge c :
  c ∈ mc →
  ∃ r, r ∈ window_sums (groupedby grouping mc)
       ∧ category r = grouping c
       ∧ quarter r = quarter_of c
       ∧ month r = month_of c.
Proof.
  intros Hc.
  assert (Hin : charge_key grouping c
                ∈ grouped_key <$> groupedby grouping mc).
  { rewrite groupedby_keys. apply elem_of_remove_dups.
    by apply list_elem_of_fmap_2. }
  apply list_elem_of_fmap in Hin as (g & [= Hcat Hq Hm] & Hg).
  exists (windows (groupedby grouping mc) g). split; [| done].
  apply elem_of_window_sums. by exists g.
Qed.

Lemma quarter_of_quarter_of_month c :
  quarter_of c = quarter_of_month (month_of c).
Proof.
  unfold quarter_of, month_of, EXTRACT_QUARTER, EXTRACT_MONTH.
  by destruct (MonthlyCharges.charged_on c).
Qed.

Lemma groupby_quarter r :
  r ∈ window_sums (groupedby grouping mc) →
  quarter r = quarter_of_month (month r)
  ∧ (calendar_months mc →
     ∀ m q, month r = Some m → quarter r = Some q →
            1 ≤ m ≤ 12 ∧ 1 ≤ q ≤ 4 ∧ 3 * q - 2 ≤ m ≤ 3 * q).
Proof.
  intros (c & Hc & _ & Hq & Hm)%elem_of_groupby_rows.
  assert (Hqm : quarter r = quarter_of_month (month r))
    by (by rewrite Hq, Hm, quarter_of_quarter_of_month).
  split; [done |]. intros Hcal m q Hmonth Hquarter.
  rewrite Hmonth in Hqm. rewrite Hquarter in Hqm. injection Hqm as ->.
  rewrite Hmonth in Hm. unfold month_of, EXTRACT_MONTH in Hm.
  destruct (MonthlyCharges.charged_on c) as [d|] eqn:Hd; [| done].
  injection Hm as ->. pose proof (Hcal c d Hc Hd) as Hrange.
  split; [done |].
  pose proof (Z.div_mod (month_of_year d - 1) 3 ltac:(lia)).
  pose proof (Z.mod_pos_bound (month_of_year d - 1) 3 ltac:(lia)).
  lia.
Qed.

Lemma groupby_rows_NoDup :
  NoDup ((λ r, (category r, month r)) <$> window_sums (groupedby grouping mc)).
Proof.
  unfold window_sums, ORDER_BY. rewrite merge_sort_Permutation.
  rewrite <- list_fmap_compose.
  replace ((λ r, (category r, month r)) ∘ windows (groupedby grouping mc))
    with ((λ k : option string * option Z * option Z, (k.1.1, k.2))
            ∘ grouped_key) by done.
  rewrite list_fmap_compose. apply NoDup_fmap_2_strong.
  - intros k1 k2 (g1 & -> & Hg1)%list_elem_of_fmap
      (g2 & -> & Hg2)%list_elem_of_fmap [= Hcat Hm].
    apply groupedby_quarter in Hg1, Hg2. unfold grouped_key.
    by rewrite Hg1, Hg2, Hcat, Hm.
  - rewrite groupedby_keys. apply NoDup_remove_dups.
Qed.
End groupby_rows.

(** X11.  In every row of the two group-by extracts the quarter is the one
    the month lies in (NULL for a charge without date); when the charge
    dates carry calendar months, the month is between 1 and 12 and the
    quarter between 1 and 4, the months 3q-2 to 3q. *)
Theorem groupby_quarter_of_month (db : database) (r : groupby_row) :
  r ∈ groupby_plan db ∨ r ∈ groupby_type db →
  quarter r = quarter_of_month (month r)
  ∧ (calendar_months (monthly_charges_2021 db) →
     ∀ m q, month r = Some m → quarter r = Some q →
            1 ≤ m ≤ 12 ∧ 1 ≤ q ≤ 4 ∧ 3 * q - 2 ≤ m ≤ 3 * q).
Proof. intros [Hr | Hr]; by eapply groupby_quarter. Qed.

(** X12.  get_groupby_plan (get_groupby_type) returns one row for each
    pair of a plan (type) and a month that occurs among the charges: no
    pair twice, none left out, none invented. *)
Theorem groupby_one_row_per_category_and_month (db : database) :
  (NoDup ((λ r, (category r, month r)) <$> groupby_plan db)
   ∧ ∀ p m, (p, m) ∈ (λ r, (category r, month r)) <$> groupby_plan db
            ↔ ∃ c, c ∈ monthly_charges_2021 db
                   ∧ MonthlyCharges.plan c = p ∧ month_of c = m)
  ∧ (NoDup ((λ r, (category r, month r)) <$> groupby_type db)
     ∧ ∀ t m, (t, m) ∈ (λ r, (category r, month r)) <$> groupby_type db
              ↔ ∃ c, c ∈ monthly_charges_2021 db
                     ∧ MonthlyCharges.type c = t ∧ month_of c = m).
Proof.
  assert (Hkeys : ∀ grouping k m,
            (k, m) ∈ (λ r, (category r, month r))
                       <$> window_sums (groupedby grouping
                                          (monthly_charges_2021 db))
            ↔ ∃ c, c ∈ monthly_charges_2021 db
                   ∧ grouping c = k ∧ month_of c = m).
  { intros grouping k m. rewrite list_elem_of_fmap. split.
    - intros (r & [= -> ->] & (c & Hc & Hcat & _ & Hm)%elem_of_groupby_rows).
      by exists c.
    - intros (c & Hc & <- & <-).
      destruct (groupby_row_of_charge grouping _ c Hc)
        as (r & Hr & Hcat & _ & Hm).
      exists r. by rewrite Hcat, Hm. }
  split; (split; [apply groupby_rows_NoDup | apply Hkeys]).
Qed.

Section quarters.
Context (grouping : MonthlyCharges.row → option string).
Context (mc : list MonthlyCharges.row).
Context (v : MonthlyCharges.row → option Z).
Context (monthly qtr by_category : groupby_row → option Z).
Context (Hmonthly : ∀ r, r ∈ window_sums (groupedby grouping mc) →
           monthly r = SUM (v <$> filter (in_month grouping r) mc)).
Context (Hqtr : ∀ r, r ∈ window_sums (groupedby grouping mc) →
           qtr r = SUM (v <$> filter (in_quarter grouping r) mc)).
Context (Hcategory : ∀ r, r ∈ window_sums (groupedby grouping mc) →
           by_category r = SUM (v <$> filter (in_category grouping r) mc)).

Lemma groupby_quarter_subtotals r :
  r ∈ window_sums (groupedby grouping mc) →
  quarter_subtotals monthly qtr by_category
    (window_sums (groupedby grouping mc)) r.
Proof.
  intros Hr. split.
  - rewrite (Hqtr r Hr).
    apply (SUM_distinct_partition month monthly _ month_of v).
    + intros x [[Hcat Hq] Hx]%list_elem_of_filter. rewrite (Hmonthly x Hx).
      rewrite list_filter_filter. f_equal. f_equal. apply list_filter_iff.
      intros c. unfold in_month, in_quarter. rewrite <- Hcat, <- Hq.
      split; [| by intros (? & ? & _)]. intros [Hc Hm]. split_and!; try done.
      apply (groupby_quarter grouping mc) in Hx as [-> _].
      by rewrite quarter_of_quarter_of_month, Hm.
    + intros c [[Hcat Hq] Hc]%list_elem_of_filter.
      destruct (groupby_row_of_charge grouping mc c Hc)
        as (x & Hx & Hxc & Hxq & Hxm).
      apply list_elem_of_fmap. exists x. split; [done |].
      apply list_elem_of_filter. by rewrite Hxc, Hxq.
  - rewrite (Hcategory r Hr).
    apply (SUM_distinct_partition quarter qtr _ quarter_of v).
    + intros x [Hcat Hx]%list_elem_of_filter. rewrite (Hqtr x Hx).
      rewrite list_filter_filter. f_equal. f_equal. apply list_filter_iff.
      intros c. unfold in_quarter, in_category. rewrite <- Hcat.
      split; [by intros [? ?] | by intros [? ?]].
    + intros c [Hcat Hc]%list_elem_of_filter.
      destruct (groupby_row_of_charge grouping mc c Hc)
        as (x & Hx & Hxc & Hxq & Hxm).
      apply list_elem_of_fmap. exists x. split; [done |].
      apply list_elem_of_filter. by rewrite Hxc.
Qed.
End quarters.

Lemma num_charges_SUM grouping mc g :
  g ∈ groupedby grouping mc →
  Some (num_charges g)
  = SUM ((λ _, Some 1)
           <$> filter (λ c, charge_key grouping c = grouped_key g) mc).
Proof.
  intros Hg. rewrite SUM_ones by by apply groupedby_rows_inhabited.
  by apply elem_of_groupedby in Hg as (_ & _ & _ & -> & _).
Qed.

Lemma num_sales_driven_SUM grouping mc g :
  g ∈ groupedby grouping mc →
  num_sales_driven g
  = SUM ((λ a, CASE_WHEN
                 (sql_eq (MonthlyCharges.is_sales_driven a) (Some true))
                 (Some 1) (Some 0))
           <$> filter (λ c, charge_key grouping c = grouped_key g) mc).
Proof. by intros (_ & _ & _ & _ & -> & _)%elem_of_groupedby. Qed.

Lemma g_revenue_SUM grouping mc g :
  g ∈ groupedby grouping mc →
  g_revenue g
  = SUM (MonthlyCharges.amount_usd
           <$> filter (λ c, charge_key grouping c = grouped_key g) mc).
Proof. by intros (_ & _ & _ & _ & _ & ->)%elem_of_groupedby. Qed.

Lemma groupby_quarters_consistent grouping mc r :
  r ∈ window_sums (groupedby grouping mc) →
  quarter_subtotals monthly_count qtr_count count_by_category
    (window_sums (groupedby grouping mc)) r
  ∧ quarter_subtotals monthly_sales_driven qtr_sales_driven
      sales_driven_by_category (window_sums (groupedby grouping mc)) r
  ∧ quarter_subtotals monthly_revenue qtr_revenue revenue_by_category
      (window_sums (groupedby grouping mc)) r.
Proof.
  intros Hr. split_and!.
  - apply (groupby_quarter_subtotals grouping mc (λ _, Some 1)); [| | | done];
      intros x (g & Hg & ->)%elem_of_window_sums;
      by apply (window_measures grouping mc (λ y, Some (num_charges y))
                  (λ _, Some 1) (num_charges_SUM grouping mc)).
  - apply (groupby_quarter_subtotals grouping mc
             (λ a, CASE_WHEN
                     (sql_eq (MonthlyCharges.is_sales_driven a) (Some true))
                     (Some 1) (Some 0))); [| | | done];
      intros x (g & Hg & ->)%elem_of_window_sums;
      by apply (window_measures grouping mc num_sales_driven _
                  (num_sales_driven_SUM grouping mc)).
  - apply (groupby_quarter_subtotals grouping mc MonthlyCharges.amount_usd);
      [| | | done];
      intros x (g & Hg & ->)%elem_of_window_sums;
      by apply (window_measures grouping mc g_revenue _
                  (g_revenue_SUM grouping mc)).
Qed.

(** X13.  get_groupby_plan and get_groupby_type: at every output row, the
    [monthly_*] column summed over the distinct months of the row's plan
    (type) and quarter is the row's [qtr_*] column, and the [qtr_*] column
    summed over the distinct quarters of the plan (type) is the row's
    [*_by_plan] ([*_by_type]) column; this for the counts, the
    sales-driven counts and the revenue. *)
Theorem groupby_quarter_sums_consistent (db : database) :
  (∀ r, r ∈ groupby_plan db →
     quarter_subtotals monthly_count qtr_count count_by_plan
       (groupby_plan db) r
     ∧ quarter_subtotals monthly_sales_driven qtr_sales_driven
         sales_driven_by_plan (groupby_plan db) r
     ∧ quarter_subtotals monthly_revenue qtr_revenue revenue_by_plan
         (groupby_plan db) r)
  ∧ (∀ r, r ∈ groupby_type db →
     quarter_subtotals monthly_count qtr_count count_by_type
       (groupby_type db) r
     ∧ quarter_subtotals monthly_sales_driven qtr_sales_driven
         sales_driven_by_type (groupby_type db) r
     ∧ quarter_subtotals monthly_revenue qtr_revenue revenue_by_type
         (groupby_type db) r).
Proof. split; intros r Hr; by apply groupby_quarters_consistent. Qed.

(** ** Empty tables *)

Lemma INNER_JOIN_nil_r {A B} (on : A → B → option bool) (l : list A) :
  INNER_JOIN on l (@nil B) = [].
Proof.
  unfold INNER_JOIN. induction l as [|a l IH]; [done |].
  by rewrite bind_cons, IH.
Qed.

(** X14.  With no charge in [monthly_charges_2021] every extract but the
    dump of the organizations has no row, whatever
    [organizations_before_2022] holds; with no organization the two joined
    extracts and the dump of the organizations have no row, whatever the
    charges are. *)
Theorem empty_tables_give_empty_extracts (db : database) :
  (monthly_charges_2021 db = [] →
   ∀ s, s ≠ OrgsBefore2022 → df_rows (sql s db) = [])
  ∧ (organizations_before_2022 db = [] →
     df_rows (sql PayingOrganizations db) = []
     ∧ df_rows (sql OutliersAndMode db) = []
     ∧ df_rows (sql OrgsBefore2022 db) = []).
Proof.
  split.
  - intros Hmc s Hs. destruct s; try done; simpl;
      unfold paying_organizations, outliers_and_mode, churn_numbers,
        groupby_plan, groupby_type, groupedby_plans, groupedby_types;
      by rewrite Hmc.
  - intros Horgs. simpl.
    unfold paying_organizations, outliers_and_mode.
    by rewrite Horgs, !INNER_JOIN_nil_r.
Qed.

(** ** The routines, one call *)








(** ** The routines, a run *)


Section runs.
Context (render : value → string) (cwd : Path) (client : Client).



Lemma invoke_all_trace calls w res w' :
  invoke_all render cwd client calls w = (res, w') →
  ∃ events, trace w' = trace w ++ events
            ∧ Forall (λ e, ¬ is_setup_event e) events.
Proof.
  revert w. induction calls as [|[s n] calls IH]; intros w.
  - intros [= <- <-]. exists []. by rewrite app_nil_r.
  - simpl. unfold mbind, M_bind.
    destruct (routine render cwd client s n w) as [r w1] eqn:Hcall.
    assert (Hstep : ∃ events, trace w1 = trace w ++ events
                              ∧ Forall (λ e, ¬ is_setup_event e) events).
    { rewrite routine_run in Hcall.
      destruct (failure client s); [| case_decide];
        injection Hcall as <- <-; eexists; (split; [done |]);
        repeat constructor; by intros []. }
    destruct Hstep as (ev1 & Ht1 & Hs1).
    destruct r as [e|[]].
    + intros [= <- <-]. by exists ev1.
    + intros (ev2 & Ht2 & Hs2)%IH. exists (ev1 ++ ev2).
      split; [by rewrite Ht2, Ht1, (assoc_L (++)) | by apply Forall_app].
Qed.
End runs.


(** X22.  In a run the credentials are loaded once and the client is built
    once, before the first call; whatever the number of calls and their
    outcome, nothing is loaded or built again, and the calls are those of
    the one client. *)
Theorem run_builds_client_once {Credentials : Type}
    (render : value → string) (cwd : Path)
    (from_service_account_file : Path → exception + Credentials)
    (bigquery_Client : Credentials → option string → exception + Client)
    (environ : gmap string string) (calls : list (statement * string))
    (w : World) file creds client :
  environ !! "SERVICE_ACCOUNT_FILE" = Some file →
  from_service_account_file (BASE_DIR cwd / file)%path = inr creds →
  bigquery_Client creds (environ !! "PROJECT_ID") = inr client →
  let setup := [LoadCredentials (BASE_DIR cwd / file)%path;
                BuildClient (environ !! "PROJECT_ID")] in
  run render cwd from_service_account_file bigquery_Client environ calls w
  = invoke_all render cwd client calls (logged setup w)
  ∧ ∃ events,
      trace (run render cwd from_service_account_file bigquery_Client
               environ calls w).2
      = trace w ++ setup ++ events
      ∧ Forall (λ e, ¬ is_setup_event e) events.
Proof.
  intros Hfile Hcreds Hclient setup.
  assert (Hrun : run render cwd from_service_account_file bigquery_Client
                   environ calls w
                 = invoke_all render cwd client calls (logged setup w)).
  { unfold run, mbind, M_bind.
    by rewrite import_module_run, Hfile, Hcreds, Hclient. }
  split; [done |]. rewrite Hrun.
  destruct (invoke_all render cwd client calls (logged setup w))
    as [res w'] eqn:Hcalls.
  apply invoke_all_trace in Hcalls as (events & Htrace & Hno).
  exists events. split; [| done]. simpl. rewrite Htrace. simpl.
  by rewrite <- (assoc_L (++)).
Qed.


(** ** The properties at the sample data *)

Lemma churn_numbers_counts_witness :
  sample_churn_row ∈ churn_numbers sample_db
  ∧ let g := charges_of (monthly_charges_2021 sample_db) (Some 3) in
    g ≠ []
    ∧ times_churned sample_churn_row = count_of_type "Churned" g
    ∧ times_reactivated sample_churn_row = count_of_type "Reactivated" g
    ∧ times_retained sample_churn_row = count_of_type "Retained" g
    ∧ revenue sample_churn_row = SUM (MonthlyCharges.amount_usd <$> g).
Proof.
  assert (H : sample_churn_row ∈ churn_numbers sample_db).
  { vm_compute. do 3 apply list_elem_of_further. apply list_elem_of_here. }
  split; [done |]. exact (churn_numbers_counts sample_db sample_churn_row H).
Defined.

Lemma churn_numbers_counters_bounded_witness :
  (sample_churn_row ∈ churn_numbers sample_db
   ∧ Forall known_type (charges_of (monthly_charges_2021 sample_db) (Some 3)))
  ∧ times_churned sample_churn_row + times_reactivated sample_churn_row
    + times_retained sample_churn_row
    = Z.of_nat (length (charges_of (monthly_charges_2021 sample_db) (Some 3))).
Proof.
  assert (H1 : sample_churn_row ∈ churn_numbers sample_db).
  { vm_compute. do 3 apply list_elem_of_further. apply list_elem_of_here. }
  assert (H2 : Forall known_type
                 (charges_of (monthly_charges_2021 sample_db) (Some 3))).
  { compute_done. }
  split; [done |].
  exact (proj2 (proj2 (proj2 (proj2
           (churn_numbers_counters_bounded sample_db sample_churn_row H1))))
           H2).
Defined.


Lemma joined_rows_match_witness :
  (sample_outlier_row ∈ paying_organizations sample_db
   ∨ sample_outlier_row ∈ outliers_and_mode sample_db)
  ∧ sample_outlier_row.2 ∈ organizations_before_2022 sample_db
  ∧ ∃ id, e_organization_id sample_outlier_row.1 = Some id
          ∧ Organizations.organization_id sample_outlier_row.2 = Some id.
Proof.
  assert (H : sample_outlier_row ∈ paying_organizations sample_db
              ∨ sample_outlier_row ∈ outliers_and_mode sample_db).
  { right. vm_compute. apply list_elem_of_here. }
  split; [done |]. exact (joined_rows_match sample_db sample_outlier_row H).
Defined.

Lemma paying_revenue_is_churn_revenue_witness :
  scenario_row ∈ paying_organizations scenario_db
  ∧ ∃ c, c ∈ churn_numbers scenario_db
         ∧ ch_organization_id c = e_organization_id scenario_row.1
         ∧ revenue c = e_total_revenue_2021 scenario_row.1.
Proof.
  assert (H : scenario_row ∈ paying_organizations scenario_db).
  { vm_compute. apply list_elem_of_here. }
  split; [done |].
  exact (paying_revenue_is_churn_revenue scenario_db scenario_row H).
Defined.

Lemma joined_rows_per_organization_witness :
  ((∃ v, org_total (monthly_charges_2021 sample_db) 3 = Some v ∧ 0 < v)
   ∧ (∃ v, org_total (monthly_charges_2021 sample_db) 3 = Some v
           ∧ (22000 < v ∨ 90 ≤ v ≤ 250)))
  ∧ length (filter (λ r, e_organization_id r.1 = Some 3)
              (paying_organizations sample_db))
    = length (filter (λ b, Organizations.organization_id b = Some 3)
                (organizations_before_2022 sample_db))
  ∧ length (filter (λ r, e_organization_id r.1 = Some 3)
              (outliers_and_mode sample_db))
    = length (filter (λ b, Organizations.organization_id b = Some 3)
                (organizations_before_2022 sample_db)).
Proof.
  assert (H1 : ∃ v, org_total (monthly_charges_2021 sample_db) 3 = Some v
                    ∧ 0 < v).
  { exists 30250. split; [reflexivity | lia]. }
  assert (H2 : ∃ v, org_total (monthly_charges_2021 sample_db) 3 = Some v
                    ∧ (22000 < v ∨ 90 ≤ v ≤ 250)).
  { exists 30250. split; [reflexivity | lia]. }
  split; [done |].
  destruct (joined_rows_per_organization sample_db 3) as [Hp Ho].
  split; [exact (Hp H1) | exact (Ho H2)].
Defined.

Lemma sample_plan_row_elem : sample_plan_row ∈ groupby_plan sample_db.
Proof.
  vm_compute. do 3 apply list_elem_of_further. apply list_elem_of_here.
Qed.

Lemma sample_type_row_elem : sample_type_row ∈ groupby_type sample_db.
Proof. vm_compute. apply list_elem_of_further. apply list_elem_of_here. Qed.

Lemma groupby_counts_are_charges_witness :
  (sample_plan_row ∈ groupby_plan sample_db
   ∧ sample_type_row ∈ groupby_type sample_db)
  ∧ monthly_count sample_plan_row
    = number_of (filter (in_month MonthlyCharges.plan sample_plan_row)
                   (monthly_charges_2021 sample_db))
  ∧ total_count sample_type_row
    = number_of (monthly_charges_2021 sample_db).
Proof.
  pose proof sample_plan_row_elem as Hp. pose proof sample_type_row_elem as Ht.
  split; [done |].
  destruct (groupby_counts_are_charges sample_db) as [Hplan Htype].
  split.
  - exact (proj1 (Hplan _ Hp)).
  - exact (proj2 (proj2 (proj2 (Htype _ Ht)))).
Defined.

Lemma groupby_sales_driven_are_flagged_charges_witness :
  (sample_plan_row ∈ groupby_plan sample_db
   ∧ sample_type_row ∈ groupby_type sample_db)
  ∧ total_sales_driven sample_plan_row
    = number_of (filter sales_driven (monthly_charges_2021 sample_db))
  ∧ monthly_sales_driven sample_type_row
    = number_of (filter sales_driven
                   (filter (in_month MonthlyCharges.type sample_type_row)
                      (monthly_charges_2021 sample_db))).
Proof.
  pose proof sample_plan_row_elem as Hp. pose proof sample_type_row_elem as Ht.
  split; [done |].
  destruct (groupby_sales_driven_are_flagged_charges sample_db)
    as [Hplan Htype].
  split.
  - exact (proj2 (proj2 (proj2 (Hplan _ Hp)))).
  - exact (proj1 (Htype _ Ht)).
Defined.

Lemma groupby_revenue_is_charged_amount_witness :
  (sample_plan_row ∈ groupby_plan sample_db
   ∧ sample_type_row ∈ groupby_type sample_db)
  ∧ qtr_revenue sample_plan_row
    = SUM (MonthlyCharges.amount_usd
             <$> filter (in_quarter MonthlyCharges.plan sample_plan_row)
                   (monthly_charges_2021 sample_db))
  ∧ revenue_by_type sample_type_row
    = SUM (MonthlyCharges.amount_usd
             <$> filter (in_category MonthlyCharges.type sample_type_row)
                   (monthly_charges_2021 sample_db)).
Proof.
  pose proof sample_plan_row_elem as Hp. pose proof sample_type_row_elem as Ht.
  split; [done |].
  destruct (groupby_revenue_is_charged_amount sample_db) as [Hplan Htype].
  split.
  - exact (proj1 (proj2 (Hplan _ Hp))).
  - exact (proj1 (proj2 (proj2 (Htype _ Ht)))).
Defined.

Lemma sample_calendar_months :
  calendar_months (monthly_charges_2021 sample_db).
Proof.
  intros c d Hc Hd. simpl in Hc.
  repeat (apply elem_of_cons in Hc as [-> | Hc]);
    try (injection Hd as <-; simpl; lia).
  by apply elem_of_nil in Hc.
Qed.

Lemma groupby_quarter_of_month_witness :
  ((sample_plan_row ∈ groupby_plan sample_db
    ∨ sample_plan_row ∈ groupby_type sample_db)
   ∧ calendar_months (monthly_charges_2021 sample_db)
   ∧ month sample_plan_row = Some 2
   ∧ quarter sample_plan_row = Some 1)
  ∧ 1 ≤ 2 ≤ 12 ∧ 1 ≤ 1 ≤ 4 ∧ 3 * 1 - 2 ≤ 2 ≤ 3 * 1.
Proof.
  assert (H1 : sample_plan_row ∈ groupby_plan sample_db
               ∨ sample_plan_row ∈ groupby_type sample_db)
    by (left; apply sample_plan_row_elem).
  pose proof sample_calendar_months as H2.
  assert (H3 : month sample_plan_row = Some 2) by reflexivity.
  assert (H4 : quarter sample_plan_row = Some 1) by reflexivity.
  split; [done |].
  exact (proj2 (groupby_quarter_of_month sample_db sample_plan_row H1)
           H2 2 1 H3 H4).
Defined.

Lemma groupby_quarter_sums_consistent_witness :
  (sample_plan_row ∈ groupby_plan sample_db
   ∧ sample_type_row ∈ groupby_type sample_db)
  ∧ quarter_subtotals monthly_count qtr_count count_by_plan
      (groupby_plan sample_db) sample_plan_row
  ∧ quarter_subtotals monthly_revenue qtr_revenue revenue_by_type
      (groupby_type sample_db) sample_type_row.
Proof.
  pose proof sample_plan_row_elem as Hp. pose proof sample_type_row_elem as Ht.
  split; [done |].
  destruct (groupby_quarter_sums_consistent sample_db) as [Hplan Htype].
  split.
  - exact (proj1 (Hplan _ Hp)).
  - exact (proj2 (proj2 (Htype _ Ht))).
Defined.

Lemma empty_tables_give_empty_extracts_witness :
  (monthly_charges_2021 empty_db = []
   ∧ ChurnNumbers ≠ OrgsBefore2022
   ∧ organizations_before_2022 empty_db = [])
  ∧ df_rows (sql ChurnNumbers empty_db) = []
  ∧ df_rows (sql PayingOrganizations empty_db) = [].
Proof.
  assert (H1 : monthly_charges_2021 empty_db = []) by reflexivity.
  assert (H2 : ChurnNumbers ≠ OrgsBefore2022) by discriminate.
  assert (H3 : organizations_before_2022 empty_db = []) by reflexivity.
  split; [done |].
  destruct (empty_tables_give_empty_extracts empty_db) as [Hmc Horgs].
  split; [exact (Hmc H1 ChurnNumbers H2) | exact (proj1 (Horgs H3))].
Defined.








Lemma run_builds_client_once_witness :
  (sample_environ !! "SERVICE_ACCOUNT_FILE" = Some "key.json"
   ∧ sample_credentials (BASE_DIR sample_cwd / "key.json")%path = inr ()
   ∧ sample_Client () (sample_environ !! "PROJECT_ID") = inr sample_client)
  ∧ run show sample_cwd sample_credentials sample_Client sample_environ
      [(ChurnNumbers, "churn.csv"); (GroupbyPlan, "plans.csv")] sample_world
    = invoke_all show sample_cwd sample_client
        [(ChurnNumbers, "churn.csv"); (GroupbyPlan, "plans.csv")]
        (logged [LoadCredentials (BASE_DIR sample_cwd / "key.json")%path;
                 BuildClient (sample_environ !! "PROJECT_ID")] sample_world).
Proof.
  assert (H1 : sample_environ !! "SERVICE_ACCOUNT_FILE" = Some "key.json")
    by reflexivity.
  assert (H2 : sample_credentials (BASE_DIR sample_cwd / "key.json")%path
               = inr ()) by reflexivity.
  assert (H3 : sample_Client () (sample_environ !! "PROJECT_ID")
               = inr sample_client) by reflexivity.
  split; [done |].
  exact (proj1 (run_builds_client_once show sample_cwd sample_credentials
                  sample_Client sample_environ
                  [(ChurnNumbers, "churn.csv"); (GroupbyPlan, "plans.csv")]
                  sample_world "key.json" () sample_client H1 H2 H3)).
Defined.

